(** * HchDB: the MySQL protocol engine and its connection manager

    A shallow embedding of [hchdb/protocol/packet.py],
    [hchdb/protocol/mysql.py] and [hchdb/connection/manager.py], and the
    properties of the wire codec, the protocol session and the admission
    logic established over it.
    The last part of the definitions adds [Config.get] and [Config.set] of
    [hchdb/common/config.py] and the packet helpers of the test client
    [tools/client.py].

    Conventions.
    - A Python [bytes] value is a list of integers (each octet a [Z]).
    - A Python [str] is the list of its code points.
    - A Python [int] is a [Z]; where [struct.pack] bounds it, the bound is
      written out and a violation raises [struct.error].
    - An exception is a value of [exn]; code that can raise returns [Res].
    - A coroutine is the function of its effects: [await] points are not
      visible, since a session shares no state with another and the
      manager's transitions are atomic between them.

    Left out: logging, task cancellation ([asyncio.CancelledError]),
    failures of the transport on write, and the byte-level framing inside
    [_read_packet] (the session takes the packets it returns). *)

From Stdlib Require Import ZArith List String Ascii Lia Bool DecimalString.
From stdpp Require Import gmap.
Import ListNotations.
Local Open Scope Z_scope.

(** ** Python values *)

Definition bytes := list Z.
Definition pystr := list Z.

(** An ASCII literal of the source, as code points (or as octets). *)
Fixpoint lit (s : string) : list Z :=
  match s with
  | EmptyString => []
  | String c r => Z.of_N (N_of_ascii c) :: lit r
  end.

(** [str(n)] for an [int]. *)
Definition str_of_int (n : Z) : pystr := lit (NilZero.string_of_int (Z.to_int n)).

(** Exceptions raised by the modelled code.  [HchDBError] subclasses carry
    the message given at the raise site; their [error_code] is fixed by the
    class.  The built-in exceptions carry the interpreter's text. *)
Inductive exn : Type :=
| ProtocolError (message : pystr)
| AuthenticationError (message : pystr)
| StructError (text : pystr)
| UnicodeDecodeError (text : pystr)
| UnicodeEncodeError (text : pystr)
| ValueError (text : pystr)
| HandlerError (text : pystr).

Inductive Res (A : Type) : Type :=
| Ok (a : A)
| Raise (e : exn).
Arguments Ok {A} a.
Arguments Raise {A} e.

#[export] Instance Res_ret : MRet Res := fun A a => Ok a.
#[export] Instance Res_bind : MBind Res := fun A B k m =>
  match m with
  | Ok a => k a
  | Raise e => Raise e
  end.

Definition is_ok {A} (r : Res A) : bool :=
  match r with Ok _ => true | Raise _ => false end.

Definition is_protocol_error {A} (r : Res A) : bool :=
  match r with Raise (ProtocolError _) => true | _ => false end.

(** ** [struct] and [BytesIO] *)

(** [n] little-endian octets of [v]. *)
Fixpoint le_bytes (n : nat) (v : Z) : bytes :=
  match n with
  | O => []
  | S k => v mod 256 :: le_bytes k (v / 256)
  end.

(** The integer a little-endian octet string denotes. *)
Fixpoint le_value (bs : bytes) : Z :=
  match bs with
  | [] => 0
  | b :: r => b + 256 * le_value r
  end.

(** [struct.pack('<B' | '<H' | '<I' | '<Q', v)]: [n] octets, or
    [struct.error] when [v] does not fit. *)
Definition pack_uint (n : nat) (v : Z) : Res bytes :=
  if (0 <=? v) && (v <? 256 ^ Z.of_nat n)
  then Ok (le_bytes n v)
  else Raise (StructError (lit "argument out of range")).

(** [struct.unpack('<B' | '<H' | '<I' | '<Q', bs)[0]]: the buffer must have
    exactly [n] octets. *)
Definition unpack_uint (n : nat) (bs : bytes) : Res Z :=
  if Nat.eqb (List.length bs) n
  then Ok (le_value bs)
  else Raise (StructError (lit "unpack requires a buffer of "
                            ++ str_of_int (Z.of_nat n) ++ lit " bytes")).

(** [stream.read(n)] on a [BytesIO] whose unread part is [s]: the octets
    read and the unread part left.  A short stream gives a short read. *)
Definition stream_read (n : nat) (s : bytes) : bytes * bytes :=
  (firstn n s, skipn n s).

(** ** [packet.py]: [Packet] *)

Record Packet : Type := mkPacket {
  payload : bytes;
  sequence_id : Z
}.

Definition Packet_length (p : Packet) : Z := Z.of_nat (List.length (payload p)).

(** [Packet.to_bytes] *)
Definition to_bytes (p : Packet) : Res bytes :=
  if Z.of_nat (List.length (payload p)) >? 0xffffff
  then Raise (ProtocolError (lit "Packet too large: "
                           ++ str_of_int (Z.of_nat (List.length (payload p)))
                           ++ lit " bytes"))
  else
    (h ← pack_uint 4 (Z.of_nat (List.length (payload p)));
     s ← pack_uint 1 (sequence_id p);
     Ok (firstn 3 h ++ s ++ payload p)).

(** ** [packet.py]: [PacketBuilder] *)

Record PacketBuilder : Type := mkBuilder {
  builder_sequence_id : Z
}.

(** [PacketBuilder.__init__] *)
Definition PacketBuilder_init : PacketBuilder := mkBuilder 0.

(** [PacketBuilder.next_sequence_id]: the id claimed and the builder after. *)
Definition next_sequence_id (b : PacketBuilder) : Z * PacketBuilder :=
  (builder_sequence_id b, mkBuilder ((builder_sequence_id b + 1) mod 256)).

(** [PacketBuilder.reset_sequence] *)
Definition reset_sequence (b : PacketBuilder) : PacketBuilder := mkBuilder 0.

(** [PacketBuilder._encode_length_encoded_int] *)
Definition _encode_length_encoded_int (value : Z) : Res bytes :=
  if value <? 251 then pack_uint 1 value
  else if value <? 65536 then
    (t ← pack_uint 1 0xfc ; v ← pack_uint 2 value; Ok (t ++ v))
  else if value <? 16777216 then
    (t ← pack_uint 1 0xfd ; v ← pack_uint 4 value; Ok (firstn 4 (t ++ v)))
  else
    (t ← pack_uint 1 0xfe ; v ← pack_uint 8 value; Ok (t ++ v)).

(** ** [packet.py]: [PacketParser] *)

(** [PacketParser._decode_length_encoded_int]: the value and the unread
    part of the stream, or the exception raised. *)
Definition _decode_length_encoded_int (stream : bytes) : Res (Z * bytes) :=
  match stream with
  | [] => Ok (0, [])
  | value :: rest =>
      if value <? 251 then Ok (value, rest)
      else if value =? 0xfc then
        let '(d, rest') := stream_read 2 rest in
        (v ← unpack_uint 2 d; Ok (v, rest'))
      else if value =? 0xfd then
        let '(d, rest') := stream_read 3 rest in
        (v ← unpack_uint 4 (d ++ [0]); Ok (v, rest'))
      else if value =? 0xfe then
        let '(d, rest') := stream_read 8 rest in
        (v ← unpack_uint 8 d; Ok (v, rest'))
      else Raise (ProtocolError (lit "Invalid length-encoded integer: "
                                ++ str_of_int value))
  end.

(** ** [str.encode] and [bytes.decode] *)

Definition is_cont (b : Z) : bool := (0x80 <=? b) && (b <=? 0xBF).

(** [bs.decode('utf-8')] (strict): the code points, or [None] where Python
    raises [UnicodeDecodeError] (a stray or missing continuation octet, an
    overlong form, a surrogate, a value above U+10FFFF). *)
Fixpoint utf8_decode (bs : bytes) : option pystr :=
  match bs with
  | [] => Some []
  | b0 :: r0 =>
      if (0 <=? b0) && (b0 <? 0x80) then cons b0 <$> utf8_decode r0
      else if (0xC2 <=? b0) && (b0 <=? 0xDF) then
        match r0 with
        | b1 :: r1 =>
            if is_cont b1
            then cons ((b0 - 0xC0) * 64 + (b1 - 0x80)) <$> utf8_decode r1
            else None
        | _ => None
        end
      else if (0xE0 <=? b0) && (b0 <=? 0xEF) then
        match r0 with
        | b1 :: b2 :: r2 =>
            if is_cont b1 && is_cont b2
               && (negb (b0 =? 0xE0) || (0xA0 <=? b1))
               && (negb (b0 =? 0xED) || (b1 <=? 0x9F))
            then cons ((b0 - 0xE0) * 4096 + (b1 - 0x80) * 64 + (b2 - 0x80))
                   <$> utf8_decode r2
            else None
        | _ => None
        end
      else if (0xF0 <=? b0) && (b0 <=? 0xF4) then
        match r0 with
        | b1 :: b2 :: b3 :: r3 =>
            if is_cont b1 && is_cont b2 && is_cont b3
               && (negb (b0 =? 0xF0) || (0x90 <=? b1))
               && (negb (b0 =? 0xF4) || (b1 <=? 0x8F))
            then cons ((b0 - 0xF0) * 262144 + (b1 - 0x80) * 4096
                       + (b2 - 0x80) * 64 + (b3 - 0x80))
                   <$> utf8_decode r3
            else None
        | _ => None
        end
      else None
  end.

Definition decode_utf8 (bs : bytes) : Res pystr :=
  match utf8_decode bs with
  | Some s => Ok s
  | None => Raise (UnicodeDecodeError (lit "'utf-8' codec can't decode"))
  end.

(** The UTF-8 octets of one code point; a lone surrogate has none. *)
Definition utf8_encode_char (c : Z) : option bytes :=
  if (0 <=? c) && (c <? 0x80) then Some [c]
  else if (0x80 <=? c) && (c <? 0x800) then
    Some [0xC0 + c / 64; 0x80 + c mod 64]
  else if (0x800 <=? c) && (c <? 0x10000) then
    if (0xD800 <=? c) && (c <=? 0xDFFF) then None
    else Some [0xE0 + c / 4096; 0x80 + (c / 64) mod 64; 0x80 + c mod 64]
  else if (0x10000 <=? c) && (c <? 0x110000) then
    Some [0xF0 + c / 262144; 0x80 + (c / 4096) mod 64;
          0x80 + (c / 64) mod 64; 0x80 + c mod 64]
  else None.

Fixpoint utf8_encode (s : pystr) : option bytes :=
  match s with
  | [] => Some []
  | c :: r =>
      match utf8_encode_char c, utf8_encode r with
      | Some a, Some b => Some (a ++ b)
      | _, _ => None
      end
  end.

(** [s.encode('utf-8')] *)
Definition encode_utf8 (s : pystr) : Res bytes :=
  match utf8_encode s with
  | Some b => Ok b
  | None => Raise (UnicodeEncodeError (lit "'utf-8' codec can't encode"))
  end.

(** [s.encode('ascii')] *)
Definition encode_ascii (s : pystr) : Res bytes :=
  if forallb (fun c => (0 <=? c) && (c <? 128)) s
  then Ok s
  else Raise (UnicodeEncodeError (lit "'ascii' codec can't encode")).

(** ** [PacketBuilder]: the packet constructors

    Each constructor assembles its payload, which can raise, and then claims
    a sequence id; the builder is returned as it is after the call. *)

Definition default_server_version : pystr := lit "8.0.0-hchdb".
Definition default_connection_id : Z := 1.
Definition default_auth_plugin : pystr := lit "mysql_native_password".

Definition capabilities_low : Z :=
  fold_right Z.lor 0
    [0x0001; 0x0002; 0x0004; 0x0008; 0x0010; 0x0020; 0x0040; 0x0080;
     0x0100; 0x0200; 0x0400; 0x0800; 0x1000; 0x2000; 0x4000; 0x8000].

Definition capabilities_high : Z :=
  fold_right Z.lor 0
    [0x0001; 0x0002; 0x0004; 0x0008; 0x0010; 0x0020; 0x0040; 0x0080; 0x0100].

Definition auth_seed_1 : bytes := lit "12345678".
Definition auth_seed_2 : bytes := lit "901234567890".
Definition auth_plugin_data_len : Z := 21.

(** [PacketBuilder.build_handshake]; an argument left out ([None]) takes the
    default of the signature. *)
Definition build_handshake (b : PacketBuilder)
    (server_version : option pystr) (connection_id : option Z)
    (auth_plugin : option pystr) : Res (Packet * PacketBuilder) :=
  let server_version := default default_server_version server_version in
  let connection_id := default default_connection_id connection_id in
  let auth_plugin := default default_auth_plugin auth_plugin in
  p0 ← pack_uint 1 10;
  ver ← encode_utf8 server_version;
  cid ← pack_uint 4 connection_id;
  clo ← pack_uint 2 capabilities_low;
  chs ← pack_uint 1 33;
  sts ← pack_uint 2 2;
  chi ← pack_uint 2 capabilities_high;
  adl ← pack_uint 1 auth_plugin_data_len;
  plg ← encode_utf8 auth_plugin;
  let '(seq, b') := next_sequence_id b in
  Ok (mkPacket
        (p0 ++ (ver ++ [0]) ++ cid ++ auth_seed_1 ++ [0] ++ clo ++ chs ++ sts
            ++ chi ++ adl ++ repeat 0 10 ++ (auth_seed_2 ++ [0])
            ++ (plg ++ [0]))
        seq, b').

(** [PacketBuilder.build_ok]; the defaults of the signature are
    [affected_rows=0, last_insert_id=0, status_flags=2, warnings=0, info=''] *)
Definition build_ok (b : PacketBuilder)
    (affected_rows last_insert_id status_flags warnings : Z) (info : pystr)
  : Res (Packet * PacketBuilder) :=
  p0 ← pack_uint 1 0x00;
  ar ← _encode_length_encoded_int affected_rows;
  li ← _encode_length_encoded_int last_insert_id;
  sf ← pack_uint 2 status_flags;
  wn ← pack_uint 2 warnings;
  inf ← (match info with [] => Ok [] | _ => encode_utf8 info end);
  let '(seq, b') := next_sequence_id b in
  Ok (mkPacket (p0 ++ ar ++ li ++ sf ++ wn ++ inf) seq, b').

(** [PacketBuilder.build_error]; the defaults of the signature are
    [error_code=1064, error_message='Unknown error', sql_state='42000'] *)
Definition build_error (b : PacketBuilder)
    (error_code : Z) (error_message sql_state : pystr)
  : Res (Packet * PacketBuilder) :=
  p0 ← pack_uint 1 0xff;
  ec ← pack_uint 2 error_code;
  st ← encode_ascii sql_state;
  msg ← encode_utf8 error_message;
  let '(seq, b') := next_sequence_id b in
  Ok (mkPacket (p0 ++ ec ++ lit "#" ++ st ++ msg) seq, b').

(** [PacketBuilder.build_eof]; the defaults of the signature are
    [warnings=0, status_flags=2] *)
Definition build_eof (b : PacketBuilder) (warnings status_flags : Z)
  : Res (Packet * PacketBuilder) :=
  p0 ← pack_uint 1 0xfe;
  wn ← pack_uint 2 warnings;
  sf ← pack_uint 2 status_flags;
  let '(seq, b') := next_sequence_id b in
  Ok (mkPacket (p0 ++ wn ++ sf) seq, b').

(** ** [PacketParser]: handshake response and query *)

(** The parsed handshake response (the dict [parse_handshake_response]
    returns; one field per key). *)
Record HandshakeResponse : Type := mkHandshakeResponse {
  hr_username : pystr;
  hr_auth_data : bytes;
  hr_database : pystr;
  hr_auth_plugin : pystr;
  hr_capabilities : Z;
  hr_max_packet_size : Z;
  hr_charset : Z
}.

(** The loop [while True: byte = stream.read(1); if not byte or byte ==
    b'\x00': break; acc += byte]: the octets accumulated and the unread
    part of the stream.  End of stream ends the loop like a terminator. *)
Fixpoint read_cstring (stream : bytes) : bytes * bytes :=
  match stream with
  | [] => ([], [])
  | byte :: rest =>
      if byte =? 0 then ([], rest)
      else let '(acc, rest') := read_cstring rest in (byte :: acc, rest')
  end.

Definition CLIENT_CONNECT_WITH_DB : Z := 0x00000008.
Definition CLIENT_PLUGIN_AUTH : Z := 0x00080000.
Definition CLIENT_PLUGIN_AUTH_LENENC_CLIENT_DATA : Z := 0x00200000.

Definition has_flag (capabilities flag : Z) : bool :=
  negb (Z.land capabilities flag =? 0).

(** [PacketParser.parse_handshake_response] *)
Definition parse_handshake_response (packet : Packet) : Res HandshakeResponse :=
  if Z.of_nat (List.length (payload packet)) <? 4
  then Raise (ProtocolError (lit "Invalid handshake response packet"))
  else
    let stream := payload packet in
    let '(d, stream) := stream_read 4 stream in
    capabilities ← unpack_uint 4 d;
    let '(d, stream) := stream_read 4 stream in
    max_packet_size ← unpack_uint 4 d;
    let '(d, stream) := stream_read 1 stream in
    charset ← unpack_uint 1 d;
    let '(_, stream) := stream_read 23 stream in
    let '(username, stream) := read_cstring stream in
    username ← decode_utf8 username;
    '(auth_data, stream) ←
      (if has_flag capabilities CLIENT_PLUGIN_AUTH_LENENC_CLIENT_DATA then
         '(auth_len, stream) ← _decode_length_encoded_int stream;
         if auth_len >? 0
         then Ok (stream_read (Z.to_nat auth_len) stream)
         else Ok ([], stream)
       else Ok (read_cstring stream));
    '(database, stream) ←
      (if has_flag capabilities CLIENT_CONNECT_WITH_DB then
         let '(db_bytes, stream) := read_cstring stream in
         database ← decode_utf8 db_bytes;
         Ok (database, stream)
       else Ok ([], stream));
    auth_plugin ←
      (if has_flag capabilities CLIENT_PLUGIN_AUTH then
         let '(plugin_bytes, _) := read_cstring stream in
         decode_utf8 plugin_bytes
       else Ok []);
    Ok {| hr_username := username; hr_auth_data := auth_data;
          hr_database := database; hr_auth_plugin := auth_plugin;
          hr_capabilities := capabilities;
          hr_max_packet_size := max_packet_size; hr_charset := charset |}.

Definition COM_QUIT : Z := 0x01.
Definition COM_INIT_DB : Z := 0x02.
Definition COM_QUERY : Z := 0x03.
Definition COM_FIELD_LIST : Z := 0x04.
Definition COM_PING : Z := 0x0e.

(** [PacketParser.parse_query] *)
Definition parse_query (packet : Packet) : Res pystr :=
  match payload packet with
  | [] => Raise (ProtocolError (lit "Invalid query packet"))
  | command :: body =>
      if negb (command =? COM_QUERY)
      then Raise (ProtocolError (lit "Not a query packet: " ++ str_of_int command))
      else decode_utf8 body
  end.

(** ** Python [str] methods used by the session *)

(** [str(e)] for an exception: [HchDBError.__str__] with empty [details]
    prints the class's error code in brackets before the message. *)
Definition exn_str (e : exn) : pystr :=
  match e with
  | ProtocolError m => lit "[1001] " ++ m
  | AuthenticationError m => lit "[1003] " ++ m
  | StructError t | UnicodeDecodeError t | UnicodeEncodeError t
  | ValueError t | HandlerError t => t
  end.

(** [bytes([n])]: one octet, [ValueError] outside [range(256)]. *)
Definition bytes_of_int (n : Z) : Res bytes :=
  if (0 <=? n) && (n <? 256) then Ok [n]
  else Raise (ValueError (lit "bytes must be in range(0, 256)")).

(** [str.upper], on the ASCII letters; other code points are kept. *)
Definition upper_char (c : Z) : Z :=
  if (97 <=? c) && (c <=? 122) then c - 32 else c.
Definition upper (s : pystr) : pystr := map upper_char s.

(** [str.isspace] of one code point. *)
Definition is_space (c : Z) : bool :=
  ((9 <=? c) && (c <=? 13)) || ((28 <=? c) && (c <=? 32))
  || (c =? 133) || (c =? 160) || (c =? 5760)
  || ((8192 <=? c) && (c <=? 8202))
  || (c =? 8232) || (c =? 8233) || (c =? 8239) || (c =? 8287) || (c =? 12288).

Fixpoint lstrip (s : pystr) : pystr :=
  match s with
  | c :: r => if is_space c then lstrip r else s
  | [] => []
  end.

(** [str.strip] *)
Definition strip (s : pystr) : pystr := rev (lstrip (rev (lstrip s))).

(** [s.startswith(prefix)] *)
Fixpoint startswith (s prefix : pystr) : bool :=
  match prefix, s with
  | [], _ => true
  | p :: pr, c :: r => (p =? c) && startswith r pr
  | _ :: _, [] => false
  end.

(** [needle in s] *)
Fixpoint contains (s needle : pystr) : bool :=
  startswith s needle
  || match s with
     | [] => false
     | _ :: r => contains r needle
     end.

(** [s[:n]] *)
Definition str_prefix (n : nat) (s : pystr) : pystr := firstn n s.

(** ** [mysql.py]: configuration, transport and session state *)

(** The configuration values the session and the manager read:
    [server.server_version], [connection.pool.max_connections],
    [connection.pool.idle_timeout] and the [authentication.users] registry
    (user name to that user's settings, of which [password] is read). *)
Record Config : Type := mkConfig {
  server_version : pystr;
  max_connections : Z;
  idle_timeout : Z;
  users_config : gmap pystr (gmap pystr pystr)
}.

(** The writer half of a connection: the packets handed to [writer.write]
    (as [packet.to_bytes()]), oldest first, and whether [close] was called.
    Writes on an open transport are taken to succeed. *)
Record Writer : Type := mkWriter {
  peername : pystr * Z;
  written : list Packet;
  is_closing : bool
}.

(** [MySQLProtocolHandler].  The reader half is the list of packets that
    successive [_read_packet] calls return before end of stream; [reads]
    logs what each call returned. *)
Record Handler : Type := mkHandler {
  writer : Writer;
  reads : list (option Packet);
  connection_id : Z;
  packet_builder : PacketBuilder;
  authenticated : bool;
  username : pystr;
  database : pystr;
  client_capabilities : Z;
  config : Config;
  query_handler : option (pystr -> Res unit)
}.

(** [MySQLProtocolHandler.__init__] *)
Definition Handler_init (cfg : Config) (w : Writer) (connection_id : Z) : Handler :=
  {| writer := w; reads := []; connection_id := connection_id;
     packet_builder := PacketBuilder_init; authenticated := false;
     username := []; database := []; client_capabilities := 0;
     config := cfg; query_handler := None |}.

(** [MySQLProtocolHandler.set_query_handler] *)
Definition set_query_handler (f : pystr -> Res unit) (h : Handler) : Handler :=
  {| writer := writer h; reads := reads h; connection_id := connection_id h;
     packet_builder := packet_builder h; authenticated := authenticated h;
     username := username h; database := database h;
     client_capabilities := client_capabilities h;
     config := config h; query_handler := Some f |}.

Definition set_writer (w : Writer) (h : Handler) : Handler :=
  {| writer := w; reads := reads h; connection_id := connection_id h;
     packet_builder := packet_builder h; authenticated := authenticated h;
     username := username h; database := database h;
     client_capabilities := client_capabilities h;
     config := config h; query_handler := query_handler h |}.

Definition set_reads (r : list (option Packet)) (h : Handler) : Handler :=
  {| writer := writer h; reads := r; connection_id := connection_id h;
     packet_builder := packet_builder h; authenticated := authenticated h;
     username := username h; database := database h;
     client_capabilities := client_capabilities h;
     config := config h; query_handler := query_handler h |}.

Definition set_packet_builder (b : PacketBuilder) (h : Handler) : Handler :=
  {| writer := writer h; reads := reads h; connection_id := connection_id h;
     packet_builder := b; authenticated := authenticated h;
     username := username h; database := database h;
     client_capabilities := client_capabilities h;
     config := config h; query_handler := query_handler h |}.

Definition set_authenticated (a : bool) (h : Handler) : Handler :=
  {| writer := writer h; reads := reads h; connection_id := connection_id h;
     packet_builder := packet_builder h; authenticated := a;
     username := username h; database := database h;
     client_capabilities := client_capabilities h;
     config := config h; query_handler := query_handler h |}.

Definition set_username (u : pystr) (h : Handler) : Handler :=
  {| writer := writer h; reads := reads h; connection_id := connection_id h;
     packet_builder := packet_builder h; authenticated := authenticated h;
     username := u; database := database h;
     client_capabilities := client_capabilities h;
     config := config h; query_handler := query_handler h |}.

Definition set_database (d : pystr) (h : Handler) : Handler :=
  {| writer := writer h; reads := reads h; connection_id := connection_id h;
     packet_builder := packet_builder h; authenticated := authenticated h;
     username := username h; database := d;
     client_capabilities := client_capabilities h;
     config := config h; query_handler := query_handler h |}.

Definition set_client_capabilities (c : Z) (h : Handler) : Handler :=
  {| writer := writer h; reads := reads h; connection_id := connection_id h;
     packet_builder := packet_builder h; authenticated := authenticated h;
     username := username h; database := database h;
     client_capabilities := c;
     config := config h; query_handler := query_handler h |}.

(** *** The session monad: handler state threaded through code that can
    raise.  A raise keeps the state reached so far. *)

Definition M (A : Type) : Type := Handler -> Res A * Handler.

#[export] Instance M_ret : MRet M := fun A a h => (Ok a, h).
#[export] Instance M_bind : MBind M := fun A B k m h =>
  match m h with
  | (Ok a, h') => k a h'
  | (Raise e, h') => (Raise e, h')
  end.

Definition raise {A} (e : exn) : M A := fun h => (Raise e, h).
Definition get : M Handler := fun h => (Ok h, h).
Definition modify (f : Handler -> Handler) : M unit := fun h => (Ok tt, f h).
Definition lift {A} (r : Res A) : M A := fun h => (r, h).

(** [try: body except Exception as e: handler(e)] *)
Definition try_except {A} (body : M A) (handler : exn -> M A) : M A :=
  fun h =>
    match body h with
    | (Ok a, h') => (Ok a, h')
    | (Raise e, h') => handler e h'
    end.

(** [try: body finally: cleanup]; [cleanup] does not raise here. *)
Definition try_finally {A} (body : M A) (cleanup : M unit) : M A :=
  fun h =>
    let '(r, h') := body h in
    let '(_, h'') := cleanup h' in
    (r, h'').

(** A packet constructor run on the session's builder. *)
Definition with_builder (f : PacketBuilder -> Res (Packet * PacketBuilder)) : M Packet :=
  fun h =>
    match f (packet_builder h) with
    | Ok (p, b') => (Ok p, set_packet_builder b' h)
    | Raise e => (Raise e, h)
    end.

(** [self.packet_builder.next_sequence_id()] *)
Definition claim_sequence_id : M Z :=
  fun h =>
    let '(seq, b') := next_sequence_id (packet_builder h) in
    (Ok seq, set_packet_builder b' h).

(** [for x in xs: body(x)] *)
Fixpoint for_each {A} (xs : list A) (body : A -> M unit) : M unit :=
  match xs with
  | [] => mret tt
  | x :: r => _ ← body x; for_each r body
  end.

(** ** [mysql.py]: [MySQLProtocolHandler] *)

(** The payload length [_read_packet] computes from the header it read:
    [int.from_bytes(header_data[:3] + b'\\x00', 'little')].  The literal
    of the source is the four characters backslash, x, 0, 0, so the length
    is an integer of seven octets. *)
Definition read_packet_length (header_data : bytes) : Z :=
  le_value (firstn 3 header_data ++ lit "\x00").

(** [_read_packet].  The session is modelled on what the calls return: the
    reader is the list of packets that successive calls return before end
    of stream, and a call returns the next one ([None] at end of stream,
    where the source catches [IncompleteReadError]) together with the
    reader left.  Reading the header and the payload off the socket is not
    modelled. *)
Definition _read_packet (reader : list Packet) : M (option Packet * list Packet) :=
  fun h =>
    match reader with
    | [] => (Ok (None, []), set_reads (reads h ++ [None]) h)
    | p :: rest => (Ok (Some p, rest), set_reads (reads h ++ [Some p]) h)
    end.

(** [writer.write(packet.to_bytes())] *)
Definition writer_write (packet : Packet) (w : Writer) : Writer :=
  {| peername := peername w; written := written w ++ [packet];
     is_closing := is_closing w |}.

(** [_write_packet] *)
Definition _write_packet (packet : Packet) : M unit :=
  fun h =>
    match to_bytes packet with
    | Ok _ => (Ok tt, set_writer (writer_write packet (writer h)) h)
    | Raise e =>
        (Raise (ProtocolError (lit "Failed to write packet: " ++ exn_str e)), h)
    end.

(** [_close_connection] *)
Definition _close_connection : M unit :=
  modify (fun h =>
    if is_closing (writer h) then h
    else set_writer {| peername := peername (writer h);
                       written := written (writer h);
                       is_closing := true |} h).

(** [_send_error]; [sql_state] defaults to ['HY000'] and no caller
    overrides it. *)
Definition _send_error (error_code : Z) (message : pystr) : M unit :=
  error_packet ← with_builder (fun b => build_error b error_code message (lit "HY000"));
  _write_packet error_packet.

(** [_send_handshake] *)
Definition _send_handshake : M unit :=
  h ← get;
  handshake_packet ← with_builder (fun b =>
    build_handshake b (Some (server_version (config h)))
                      (Some (connection_id h)) None);
  _write_packet handshake_packet.

(** [_authenticate_user] *)
Definition _authenticate_user (cfg : Config) (auth_info : HandshakeResponse) : bool :=
  match users_config cfg !! hr_username auth_info with
  | None => false
  | Some user_config =>
      let expected_password := default [] (user_config !! lit "password") in
      match expected_password with
      | [] => true
      | _ => true
      end
  end.

(** [self.packet_builder.build_ok()] with the defaults, then written. *)
Definition send_ok (affected_rows : Z) : M unit :=
  ok_packet ← with_builder (fun b => build_ok b affected_rows 0 2 0 []);
  _write_packet ok_packet.

(** [self.packet_builder.build_eof()] with the defaults, then written. *)
Definition send_eof : M unit :=
  eof_packet ← with_builder (fun b => build_eof b 0 2);
  _write_packet eof_packet.

(** [Packet(data, self.packet_builder.next_sequence_id())], then written. *)
Definition send_raw (data : bytes) : M unit :=
  seq ← claim_sequence_id;
  _write_packet (mkPacket data seq).

(** [_handle_authentication]: the reader left after the handshake response. *)
Definition _handle_authentication (reader : list Packet) : M (list Packet) :=
  '(auth_packet, reader) ← _read_packet reader;
  match auth_packet with
  | None => raise (ProtocolError (lit "No authentication packet received"))
  | Some auth_packet =>
      auth_info ←
        match parse_handshake_response auth_packet with
        | Ok a => mret a
        | Raise e =>
            raise (ProtocolError
                     (lit "Failed to parse authentication packet: " ++ exn_str e))
        end;
      _ ← modify (set_username (hr_username auth_info));
      _ ← modify (set_database (hr_database auth_info));
      _ ← modify (set_client_capabilities (hr_capabilities auth_info));
      h ← get;
      if negb (_authenticate_user (config h) auth_info) then
        _ ← _send_error 1045
              (lit "Access denied for user '" ++ username h ++ lit "'");
        raise (AuthenticationError
                 (lit "Authentication failed for user: " ++ username h))
      else
        _ ← send_ok 0;
        _ ← modify (set_authenticated true);
        mret reader
  end.

(** [_handle_ping] *)
Definition _handle_ping : M unit := send_ok 0.

(** [_handle_init_db] *)
Definition _handle_init_db (packet : Packet) : M unit :=
  if Z.of_nat (List.length (payload packet)) <? 2
  then _send_error 1064 (lit "Invalid USE command")
  else
    db ← lift (decode_utf8 (skipn 1 (payload packet)));
    _ ← modify (set_database db);
    send_ok 0.

(** [_handle_field_list] *)
Definition _handle_field_list (packet : Packet) : M unit := send_eof.

(** [_send_select_result].  The byte literals are the source's, backslashes
    included. *)
Definition _send_select_result (query : pystr) : M unit :=
  _ ← send_raw (lit "\x01");
  let field_def :=
    lit "def\x00" ++ lit "hchdb\x00" ++ lit "demo\x00" ++ lit "demo\x00"
    ++ lit "message\x00" ++ lit "message\x00" ++ lit "\x0c" ++ lit "\x21\x00"
    ++ lit "\x14\x00\x00\x00" ++ lit "\xfd" ++ lit "\x00\x00" ++ lit "\x00"
    ++ lit "\x00\x00" in
  _ ← send_raw field_def;
  _ ← send_eof;
  let message := lit "Hello from HchDB! Query: " ++ str_prefix 50 query ++ lit "..." in
  n ← lift (bytes_of_int (Z.of_nat (List.length message)));
  m ← lift (encode_utf8 message);
  _ ← send_raw (n ++ m);
  send_eof.

(** One text row of a single value: [bytes([len(s)]) + s.encode('utf-8')]. *)
Definition row_value (s : pystr) : Res bytes :=
  n ← bytes_of_int (Z.of_nat (List.length s));
  v ← encode_utf8 s;
  Ok (n ++ v).

(** [_send_databases_result] *)
Definition _send_databases_result : M unit :=
  let databases := [lit "information_schema"; lit "hchdb"; lit "test"] in
  _ ← send_raw (lit "\x01");
  let field_def :=
    lit "def\x00information_schema\x00SCHEMATA\x00SCHEMATA\x00"
    ++ lit "SCHEMA_NAME\x00SCHEMA_NAME\x00\x0c!\x00\x00\x02\x00\x00"
    ++ lit "\xfd\x01\x00\x1f\x00\x00" in
  _ ← send_raw field_def;
  _ ← send_eof;
  _ ← for_each databases (fun db =>
        row_data ← lift (row_value db);
        send_raw row_data);
  send_eof.

(** [_send_tables_result] *)
Definition _send_tables_result : M unit :=
  let tables := [lit "users"; lit "orders"; lit "products"] in
  _ ← send_raw (lit "\x01");
  h ← get;
  let db := match database h with [] => lit "hchdb" | d => d end in
  let table_name := lit "Tables_in_" ++ db in
  fd ← lift (encode_utf8 (lit "def\x00" ++ db ++ lit "\x00\x00\x00"
                          ++ table_name ++ lit "\x00" ++ table_name ++ lit "\x00"));
  let field_def := fd ++ lit "\x0c!\x00\x00\x02\x00\x00\xfd\x01\x00\x1f\x00\x00" in
  _ ← send_raw field_def;
  _ ← send_eof;
  _ ← for_each tables (fun table =>
        row_data ← lift (row_value table);
        send_raw row_data);
  send_eof.

(** [_send_variables_result] *)
Definition _send_variables_result : M unit :=
  h ← get;
  let variables :=
    [(lit "version", server_version (config h));
     (lit "version_comment", lit "HchDB distributed database");
     (lit "max_connections", str_of_int (max_connections (config h)))] in
  _ ← send_raw (lit "\x02");
  _ ← send_raw (lit "def\x00\x00\x00\x00Variable_name\x00Variable_name\x00"
                ++ lit "\x0c!\x00\x00\x02\x00\x00\xfd\x01\x00\x1f\x00\x00");
  _ ← send_raw (lit "def\x00\x00\x00\x00Value\x00Value\x00"
                ++ lit "\x0c!\x00\x00\x02\x00\x00\xfd\x01\x00\x1f\x00\x00");
  _ ← send_eof;
  _ ← for_each variables (fun '(name, value) =>
        n ← lift (row_value name);
        v ← lift (row_value value);
        send_raw (n ++ v));
  send_eof.

(** [_send_show_result] *)
Definition _send_show_result (query : pystr) : M unit :=
  let query_upper := strip (upper query) in
  if contains query_upper (lit "DATABASES") then _send_databases_result
  else if contains query_upper (lit "TABLES") then _send_tables_result
  else if contains query_upper (lit "VERSION") || contains query_upper (lit "VARIABLES")
  then _send_variables_result
  else send_eof.

(** [_send_simple_result] *)
Definition _send_simple_result (query : pystr) : M unit :=
  let query_upper := strip (upper query) in
  if startswith query_upper (lit "SELECT") then _send_select_result query
  else if startswith query_upper (lit "INSERT")
          || startswith query_upper (lit "UPDATE")
          || startswith query_upper (lit "DELETE")
  then send_ok 1
  else if startswith query_upper (lit "SHOW") then _send_show_result query
  else send_ok 0.

(** [_send_query_result]: the handler's result is not looked at. *)
Definition _send_query_result (result : unit) : M unit := send_ok 0.

(** [_handle_query] *)
Definition _handle_query (packet : Packet) : M unit :=
  try_except
    (query ← lift (parse_query packet);
     h ← get;
     match query_handler h with
     | Some f => result ← lift (f query); _send_query_result result
     | None => _send_simple_result query
     end)
    (fun e => _send_error 1064 (lit "Query error: " ++ exn_str e)).

(** [_process_command] *)
Definition _process_command (packet : Packet) : M unit :=
  match payload packet with
  | [] => _send_error 1064 (lit "Empty command packet")
  | command :: _ =>
      if command =? COM_QUIT then mret tt
      else if command =? COM_QUERY then _handle_query packet
      else if command =? COM_PING then _handle_ping
      else if command =? COM_INIT_DB then _handle_init_db packet
      else if command =? COM_FIELD_LIST then _handle_field_list packet
      else _send_error 1047 (lit "Unknown command: " ++ str_of_int command)
  end.

(** [_handle_commands]: the loop runs until [_read_packet] returns [None];
    an exception of the error reply itself leaves the loop. *)
Fixpoint _handle_commands (reader : list Packet) : M unit :=
  match reader with
  | [] => _ ← _read_packet reader; mret tt
  | _ :: rest =>
      '(packet, _) ← _read_packet reader;
      _ ← try_except
            (match packet with
             | None => mret tt
             | Some packet => _process_command packet
             end)
            (fun e => _send_error 1105 (lit "Internal error: " ++ exn_str e));
      _handle_commands rest
  end.

(** [handle_connection] *)
Definition handle_connection (reader : list Packet) : M unit :=
  try_finally
    (try_except
       (_ ← _send_handshake;
        reader ← _handle_authentication reader;
        _handle_commands reader)
       (fun e => _send_error 1105 (lit "Internal error: " ++ exn_str e)))
    _close_connection.

(** ** [manager.py]: [ConnectionManager]

    The manager runs on one event loop; each function below is the code
    between two suspension points that touch [_connections], so it is one
    atomic transition.  Clock readings ([time.time()]) are arguments. *)

Record ConnectionInfo : Type := mkConnectionInfo {
  info_connection_id : Z;
  info_client_address : pystr * Z;
  info_username : pystr;
  info_database : pystr;
  info_connected_at : Z;
  info_last_activity : Z;
  info_query_count : Z;
  info_bytes_sent : Z;
  info_bytes_received : Z
}.

Record ConnectionManager : Type := mkManager {
  manager_config : Config;
  _connections : gmap Z ConnectionInfo;
  _active_handlers : gmap Z Handler;
  _next_connection_id : Z;
  _max_connections : Z;
  total_connections : Z;
  rejected_connections : Z;
  start_time : Z
}.

(** [ConnectionManager.__init__] *)
Definition ConnectionManager_init (cfg : Config) (now : Z) : ConnectionManager :=
  {| manager_config := cfg; _connections := ∅; _active_handlers := ∅;
     _next_connection_id := 1; _max_connections := max_connections cfg;
     total_connections := 0; rejected_connections := 0; start_time := now |}.

(** [writer.close()] *)
Definition writer_close (w : Writer) : Writer :=
  {| peername := peername w; written := written w; is_closing := true |}.

(** The coroutine [handle_new_connection] hands to [asyncio.create_task]:
    [_handle_connection(handler, connection_info)], not yet started, with
    the reader its handler owns. *)
Record SessionTask : Type := mkSessionTask {
  task_handler : Handler;
  task_connection_info : ConnectionInfo;
  task_reader : list Packet
}.

(** [handle_new_connection]: the manager after the call, the writer after
    the call, and the session task created (none on rejection).
    [connected_at] and [last_activity] are the two clock readings. *)
Definition handle_new_connection (m : ConnectionManager)
    (reader : list Packet) (w : Writer) (connected_at last_activity : Z)
  : ConnectionManager * Writer * option SessionTask :=
  let client_address := peername w in
  if Z.of_nat (size (_connections m)) >=? _max_connections m then
    ({| manager_config := manager_config m; _connections := _connections m;
        _active_handlers := _active_handlers m;
        _next_connection_id := _next_connection_id m;
        _max_connections := _max_connections m;
        total_connections := total_connections m;
        rejected_connections := rejected_connections m + 1;
        start_time := start_time m |},
     writer_close w, None)
  else
    let connection_id := _next_connection_id m in
    let connection_info :=
      {| info_connection_id := connection_id;
         info_client_address := client_address;
         info_username := []; info_database := [];
         info_connected_at := connected_at;
         info_last_activity := last_activity;
         info_query_count := 0; info_bytes_sent := 0;
         info_bytes_received := 0 |} in
    let handler := Handler_init (manager_config m) w connection_id in
    ({| manager_config := manager_config m;
        _connections := <[connection_id := connection_info]> (_connections m);
        _active_handlers := <[connection_id := handler]> (_active_handlers m);
        _next_connection_id := _next_connection_id m + 1;
        _max_connections := _max_connections m;
        total_connections := total_connections m + 1;
        rejected_connections := rejected_connections m;
        start_time := start_time m |},
     w, Some (mkSessionTask handler connection_info reader)).

Definition set_connections (c : gmap Z ConnectionInfo) (m : ConnectionManager)
  : ConnectionManager :=
  {| manager_config := manager_config m; _connections := c;
     _active_handlers := _active_handlers m;
     _next_connection_id := _next_connection_id m;
     _max_connections := _max_connections m;
     total_connections := total_connections m;
     rejected_connections := rejected_connections m;
     start_time := start_time m |}.

Definition set_active_handlers (a : gmap Z Handler) (m : ConnectionManager)
  : ConnectionManager :=
  {| manager_config := manager_config m; _connections := _connections m;
     _active_handlers := a;
     _next_connection_id := _next_connection_id m;
     _max_connections := _max_connections m;
     total_connections := total_connections m;
     rejected_connections := rejected_connections m;
     start_time := start_time m |}.

(** [_close_handler] *)
Definition _close_handler (h : Handler) : Handler :=
  if is_closing (writer h) then h else set_writer (writer_close (writer h)) h.

(** [_cleanup_connection]: the manager after, and the handler it closed. *)
Definition _cleanup_connection (m : ConnectionManager) (connection_id : Z)
  : ConnectionManager * option Handler :=
  let m1 :=
    match _connections m !! connection_id with
    | Some _ => set_connections (delete connection_id (_connections m)) m
    | None => m
    end in
  match _active_handlers m1 !! connection_id with
  | Some handler =>
      (set_active_handlers (delete connection_id (_active_handlers m1)) m1,
       Some (_close_handler handler))
  | None => (m1, None)
  end.

(** [_handle_connection]: the session runs to its end on the handler the
    manager tracks, then the connection is cleaned up. *)
Definition _handle_connection (m : ConnectionManager) (t : SessionTask)
  : ConnectionManager * option Handler :=
  let connection_id := info_connection_id (task_connection_info t) in
  let '(_, handler) := handle_connection (task_reader t) (task_handler t) in
  let m1 :=
    match _active_handlers m !! connection_id with
    | Some _ => set_active_handlers (<[connection_id := handler]> (_active_handlers m)) m
    | None => m
    end in
  _cleanup_connection m1 connection_id.

(** [_cleanup_idle_connections] *)
Definition _cleanup_idle_connections (m : ConnectionManager) (now : Z)
  : ConnectionManager :=
  let idle_connections :=
    map fst (filter (fun kv => now - info_last_activity (snd kv) >? idle_timeout (manager_config m))
                    (map_to_list (_connections m))) in
  fold_left (fun m connection_id => fst (_cleanup_connection m connection_id))
            idle_connections m.

(** [update_connection_activity] *)
Definition update_connection_activity (m : ConnectionManager)
    (connection_id query_count bytes_sent bytes_received now : Z)
  : ConnectionManager :=
  match _connections m !! connection_id with
  | Some info =>
      set_connections
        (<[connection_id :=
             {| info_connection_id := info_connection_id info;
                info_client_address := info_client_address info;
                info_username := info_username info;
                info_database := info_database info;
                info_connected_at := info_connected_at info;
                info_last_activity := now;
                info_query_count := info_query_count info + query_count;
                info_bytes_sent := info_bytes_sent info + bytes_sent;
                info_bytes_received := info_bytes_received info + bytes_received |}]>
           (_connections m)) m
  | None => m
  end.

(** [update_connection_auth] *)
Definition update_connection_auth (m : ConnectionManager)
    (connection_id : Z) (user db : pystr) : ConnectionManager :=
  match _connections m !! connection_id with
  | Some info =>
      set_connections
        (<[connection_id :=
             {| info_connection_id := info_connection_id info;
                info_client_address := info_client_address info;
                info_username := user;
                info_database := db;
                info_connected_at := info_connected_at info;
                info_last_activity := info_last_activity info;
                info_query_count := info_query_count info;
                info_bytes_sent := info_bytes_sent info;
                info_bytes_received := info_bytes_received info |}]>
           (_connections m)) m
  | None => m
  end.

(** [get_connection_count] *)
Definition get_connection_count (m : ConnectionManager) : Z :=
  Z.of_nat (size (_connections m)).

(** One transition of the manager: any of the operations that write
    [_connections], on any arguments. *)
Inductive manager_step : ConnectionManager -> ConnectionManager -> Prop :=
| step_new_connection m reader w t1 t2 :
    manager_step m (handle_new_connection m reader w t1 t2).1.1
| step_cleanup_connection m connection_id :
    manager_step m (_cleanup_connection m connection_id).1
| step_handle_connection m t :
    manager_step m (_handle_connection m t).1
| step_cleanup_idle m now :
    manager_step m (_cleanup_idle_connections m now)
| step_update_activity m connection_id q s r now :
    manager_step m (update_connection_activity m connection_id q s r now)
| step_update_auth m connection_id user db :
    manager_step m (update_connection_auth m connection_id user db).

(** The states a manager built from [cfg] can be in. *)
Inductive manager_reachable (cfg : Config) : ConnectionManager -> Prop :=
| reachable_init now : manager_reachable cfg (ConnectionManager_init cfg now)
| reachable_step m m' :
    manager_reachable cfg m -> manager_step m m' -> manager_reachable cfg m'.

(** * Vocabulary of the statements *)

(** The shortest length-encoded form of [v], as the format defines it. *)
Definition lei_minimal_form (v : Z) : bytes :=
  if v <? 251 then [v]
  else if v <? 65536 then 0xfc :: le_bytes 2 v
  else if v <? 16777216 then 0xfd :: le_bytes 3 v
  else 0xfe :: le_bytes 8 v.

(** No octet of [l] is the terminator. *)
Definition no_nul (l : bytes) : Prop := Forall (fun b => b <> 0) l.

(** The 32 octets before the user name: capabilities, maximum packet size,
    character set, 23 reserved octets. *)
Definition response_head (caps4 mps4 : bytes) (charset : Z) (reserved : bytes) : bytes :=
  caps4 ++ mps4 ++ [charset] ++ reserved.

(** The fields after the head, read the way [parse_handshake_response]
    reads them; [parse_handshake_response_head] relates the two. *)
Definition parse_body (capabilities max_packet_size charset : Z) (stream : bytes)
  : Res HandshakeResponse :=
  let '(username, stream) := read_cstring stream in
  username ← decode_utf8 username;
  '(auth_data, stream) ←
    (if has_flag capabilities CLIENT_PLUGIN_AUTH_LENENC_CLIENT_DATA then
       '(auth_len, stream) ← _decode_length_encoded_int stream;
       if auth_len >? 0
       then Ok (stream_read (Z.to_nat auth_len) stream)
       else Ok ([], stream)
     else Ok (read_cstring stream));
  '(database, stream) ←
    (if has_flag capabilities CLIENT_CONNECT_WITH_DB then
       let '(db_bytes, stream) := read_cstring stream in
       database ← decode_utf8 db_bytes;
       Ok (database, stream)
     else Ok ([], stream));
  auth_plugin ←
    (if has_flag capabilities CLIENT_PLUGIN_AUTH then
       let '(plugin_bytes, _) := read_cstring stream in
       decode_utf8 plugin_bytes
     else Ok []);
  Ok {| hr_username := username; hr_auth_data := auth_data;
        hr_database := database; hr_auth_plugin := auth_plugin;
        hr_capabilities := capabilities;
        hr_max_packet_size := max_packet_size; hr_charset := charset |}.



(** The 32-bit capability word a client assembles from the two halves the
    greeting carries. *)
Definition capability_word : Z :=
  Z.lor capabilities_low (Z.shiftl capabilities_high 16).

(** The greeting's payload for an encoded server version [vb], a connection
    id and an encoded plugin name [pb]. *)
Definition handshake_payload (vb : bytes) (id : Z) (pb : bytes) : bytes :=
  [0x0A] ++ (vb ++ [0]) ++ le_bytes 4 id
  ++ auth_seed_1 ++ [0]
  ++ le_bytes 2 capabilities_low ++ [0x21] ++ [0x02; 0x00]
  ++ le_bytes 2 capabilities_high ++ [21] ++ repeat 0 10%nat
  ++ (auth_seed_2 ++ [0]) ++ (pb ++ [0]).

(** The cap: no more tracked connections than [_max_connections]. *)
Definition within_cap (m : ConnectionManager) : Prop :=
  Z.of_nat (size (_connections m)) <= _max_connections m.

(** A manager with cap 1 that has admitted one connection. *)
Definition cap1_config : Config :=
  {| server_version := lit "8.0.0-hchdb"; max_connections := 1;
     idle_timeout := 300; users_config := ∅ |}.
Definition fresh_writer : Writer :=
  {| peername := (lit "127.0.0.1", 50000); written := []; is_closing := false |}.
Definition full_manager : ConnectionManager :=
  (handle_new_connection (ConnectionManager_init cap1_config 0) [] fresh_writer 0 0).1.1.

(** A registry with [root] (empty password) and [admin] (password
    [secret]). *)
Definition demo_users : gmap pystr (gmap pystr pystr) :=
  <[lit "root" := {[ lit "password" := [] ]}]>
    (<[lit "admin" := {[ lit "password" := lit "secret" ]}]> ∅).

Definition demo_config : Config :=
  {| server_version := lit "8.0.0-hchdb"; max_connections := 1000;
     idle_timeout := 300; users_config := demo_users |}.

(** What a client announces: the capabilities of [tools/client.py]
    (LONG_PASSWORD, FOUND_ROWS, LONG_FLAG, CONNECT_WITH_DB, PROTOCOL_41,
    SECURE_CONNECTION, PLUGIN_AUTH), a 16 MiB packet limit, charset 33. *)
Definition client_capabilities_word : Z := 0x8820F.


(** The parsed form of [login_packet]. *)
Definition login_info (user : pystr) (auth_data : bytes) : HandshakeResponse :=
  {| hr_username := user; hr_auth_data := auth_data;
     hr_database := lit "hchdb"; hr_auth_plugin := lit "mysql_native_password";
     hr_capabilities := client_capabilities_word;
     hr_max_packet_size := 16777216; hr_charset := 33 |}.

Definition query_packet (sql : bytes) : Packet := mkPacket (COM_QUERY :: sql) 0.


Definition written_ids (r : Res unit * Handler) : list Z :=
  map sequence_id (written (writer r.2)).

(** The payload of an OK packet with the defaults, of an EOF packet with the
    defaults, and of an ERR packet with state [HY000]. *)
Definition ok_payload : bytes := [0; 0; 0; 2; 0; 0; 0].
Definition eof_payload : bytes := [0xfe; 0; 0; 2; 0].
Definition err_payload (code : Z) (message : bytes) : bytes :=
  [0xff] ++ le_bytes 2 code ++ lit "#HY000" ++ message.

(** * More of the code

    [Packet.from_bytes] and [Packet.read_from_stream], the packet helpers
    of [tools/client.py], [Config.get] and [Config.set], and the
    vocabulary of the statements about them and about the session and
    the manager. *)

(** ** [packet.py]: reading frames *)

(** [Packet.from_bytes] *)
Definition from_bytes (data : bytes) : Res Packet :=
  if Z.of_nat (List.length data) <? 4
  then Raise (ProtocolError (lit "Incomplete packet header"))
  else
    len ← unpack_uint 4 (firstn 3 data ++ [0]);
    sequence_id ← unpack_uint 1 (firstn 1 (skipn 3 data));
    if Z.of_nat (List.length data) <? 4 + len
    then Raise (ProtocolError
                  (lit "Incomplete packet: expected " ++ str_of_int (4 + len)
                   ++ lit ", got " ++ str_of_int (Z.of_nat (List.length data))))
    else Ok (mkPacket (firstn (Z.to_nat len) (skipn 4 data)) sequence_id).

(** [Packet.read_from_stream]: the packet read ([None] when the header or
    the payload is cut short) and the unread part of the stream. *)
Definition read_from_stream (stream : bytes) : option Packet * bytes :=
  let '(header_data, stream) := stream_read 4 stream in
  if Z.of_nat (List.length header_data) <? 4 then (None, stream)
  else
    match unpack_uint 4 (firstn 3 header_data ++ [0]),
          unpack_uint 1 (firstn 1 (skipn 3 header_data)) with
    | Ok len, Ok sequence_id =>
        let '(payload, stream) := stream_read (Z.to_nat len) stream in
        if Z.of_nat (List.length payload) <? len then (None, stream)
        else (Some (mkPacket payload sequence_id), stream)
    | _, _ => (None, stream)
    end.

(** The frame of a packet: three length octets, the sequence id, the
    payload. *)
Definition frame (p : Packet) : bytes :=
  le_bytes 3 (Z.of_nat (List.length (payload p))) ++ [sequence_id p] ++ payload p.

Definition fits_frame (p : Packet) : Prop :=
  Z.of_nat (List.length (payload p)) <= 0xffffff /\ 0 <= sequence_id p < 256.

(** ** The sequence counter *)

(** [n] calls of [next_sequence_id] in a row: the ids returned and the
    builder left. *)
Fixpoint claim_ids (n : nat) (b : PacketBuilder) : list Z * PacketBuilder :=
  match n with
  | O => ([], b)
  | S k =>
      let '(id, b') := next_sequence_id b in
      let '(ids, b'') := claim_ids k b' in
      (id :: ids, b'')
  end.

(** ** Length-encoded integers at the edges *)

(** The number of octets that follow a tag. *)
Definition lei_tag_width (tag : Z) : option nat :=
  if tag =? 0xfc then Some 2%nat
  else if tag =? 0xfd then Some 3%nat
  else if tag =? 0xfe then Some 8%nat
  else None.

(** ** [tools/client.py]: what the test client sends and reads *)

(** [send_packet]: the octets handed to [sock.send]. *)
Definition send_packet (payload : bytes) (sequence_id : Z) : Res bytes :=
  h ← pack_uint 4 (Z.of_nat (List.length payload));
  s ← pack_uint 1 sequence_id;
  Ok (firstn 3 h ++ s ++ payload).

(** [create_query_packet] *)
Definition create_query_packet (query : pystr) : Res bytes :=
  c ← pack_uint 1 0x03;
  q ← encode_utf8 query;
  Ok (c ++ q).

Definition auth_response_capabilities : Z :=
  fold_right Z.lor 0
    [0x00000001; 0x00000002; 0x00000004; 0x00000008; 0x00000200;
     0x00008000; 0x00080000].

(** [create_auth_response]; the password is not used. *)
Definition create_auth_response (username password database : pystr) : Res bytes :=
  caps ← pack_uint 4 auth_response_capabilities;
  mps ← pack_uint 4 16777216;
  cs ← pack_uint 1 33;
  user ← encode_utf8 username;
  alen ← pack_uint 1 0;
  db ← (match database with
        | [] => Ok []
        | _ => d ← encode_utf8 database; Ok (d ++ [0])
        end);
  Ok (caps ++ mps ++ cs ++ repeat 0 23%nat ++ (user ++ [0]) ++ alen ++ db
      ++ (lit "mysql_native_password" ++ [0])).

(** [data.find(b'\x00', offset)]: the index of the first 0 at or after
    [offset], [-1] when there is none. *)
Fixpoint find_nul_from (i : Z) (data : bytes) : Z :=
  match data with
  | [] => -1
  | b :: r => if b =? 0 then i else find_nul_from (i + 1) r
  end.

Definition find_nul (data : bytes) (offset : nat) : Z :=
  find_nul_from (Z.of_nat offset) (skipn offset data).

(** [data[lo:hi]] for [lo >= 0]; a negative [hi] counts from the end. *)
Definition slice (data : bytes) (lo : Z) (hi : Z) : bytes :=
  let n := Z.of_nat (List.length data) in
  let hi := if hi <? 0 then Z.max 0 (n + hi) else hi in
  skipn (Z.to_nat lo) (firstn (Z.to_nat hi) data).

(** [parse_handshake]: the protocol version, server version and connection
    id it prints; [None] where it raises ([IndexError] on empty data, a
    decoding error, [struct.error] on a short connection id). *)
Definition parse_handshake (handshake_data : bytes) : option (Z * pystr * Z) :=
  match handshake_data with
  | [] => None
  | protocol_version :: _ =>
      let offset := 1 in
      let version_end := find_nul handshake_data 1 in
      match utf8_decode (slice handshake_data offset version_end) with
      | None => None
      | Some server_version =>
          let offset := version_end + 1 in
          match unpack_uint 4 (slice handshake_data offset (offset + 4)) with
          | Ok connection_id => Some (protocol_version, server_version, connection_id)
          | Raise _ => None
          end
      end
  end.

(** ** Handshake responses that are too short *)

(** The all-empty response parsed from a payload that ends inside the fixed
    head. *)
Definition empty_response (pl : bytes) : HandshakeResponse :=
  {| hr_username := []; hr_auth_data := []; hr_database := [];
     hr_auth_plugin := [];
     hr_capabilities := le_value (firstn 4 pl);
     hr_max_packet_size := le_value (firstn 4 (skipn 4 pl));
     hr_charset := le_value (firstn 1 (skipn 8 pl)) |}.

(** ** Running the session's sends *)

(** The builder holds a sequence id of one octet. *)
Definition healthy (h : Handler) : Prop :=
  0 <= builder_sequence_id (packet_builder h) < 256.

(** The handler after one packet with payload [data] has been built on its
    builder and written: the packet takes the builder's sequence id, the
    builder moves on by one modulo 256, and nothing else changes. *)
Definition emit (data : bytes) (h : Handler) : Handler :=
  set_writer
    (writer_write (mkPacket data (builder_sequence_id (packet_builder h)))
                  (writer h))
    (set_packet_builder
       (mkBuilder ((builder_sequence_id (packet_builder h) + 1) mod 256)) h).

(** ** Authentication *)


(** ** Commands *)

(** The command octets the session knows. *)
Definition known_command (c : Z) : bool :=
  (c =? COM_QUIT) || (c =? COM_QUERY) || (c =? COM_PING)
  || (c =? COM_INIT_DB) || (c =? COM_FIELD_LIST).

(** The decimal text of [n] encodes to itself in at most three octets. *)
Definition octet_text_ok (n : nat) : bool :=
  match utf8_encode (str_of_int (Z.of_nat n)) with
  | Some b => bool_decide (b = str_of_int (Z.of_nat n))
              && (List.length b <=? 3)%nat
  | None => false
  end.

(** The statement prefixes of the fallback responder. *)
Definition is_select (q : pystr) : bool := startswith (strip (upper q)) (lit "SELECT").

Definition is_dml (q : pystr) : bool :=
  startswith (strip (upper q)) (lit "INSERT")
  || startswith (strip (upper q)) (lit "UPDATE")
  || startswith (strip (upper q)) (lit "DELETE").

Definition is_show (q : pystr) : bool := startswith (strip (upper q)) (lit "SHOW").

Definition show_keyword (q : pystr) : bool :=
  contains (strip (upper q)) (lit "DATABASES")
  || contains (strip (upper q)) (lit "TABLES")
  || contains (strip (upper q)) (lit "VERSION")
  || contains (strip (upper q)) (lit "VARIABLES").

(** Text in ASCII; on it [upper] is [str.upper], which maps some letters
    outside ASCII to ASCII ones. *)
Definition ascii_text (q : pystr) : bool :=
  forallb (fun c => (0 <=? c) && (c <? 128)) q.

(** ** The SELECT echo *)



(** ** Connection ids *)

(** Every tracked connection has an id already handed out, and the total
    counts the ids handed out. *)
Definition ids_consistent (m : ConnectionManager) : Prop :=
  (forall id, is_Some (_connections m !! id) -> 1 <= id < _next_connection_id m)
  /\ total_connections m = _next_connection_id m - 1
  /\ 1 <= _next_connection_id m
  /\ 0 <= rejected_connections m.

(** The record of a connection just admitted. *)
Definition new_connection_info (m : ConnectionManager) (w : Writer)
    (connected_at last_activity : Z) : ConnectionInfo :=
  {| info_connection_id := _next_connection_id m;
     info_client_address := peername w;
     info_username := []; info_database := [];
     info_connected_at := connected_at; info_last_activity := last_activity;
     info_query_count := 0; info_bytes_sent := 0; info_bytes_received := 0 |}.

(** The idle test of [_cleanup_idle_connections]. *)
Definition is_idle (m : ConnectionManager) (now : Z) (info : ConnectionInfo) : bool :=
  now - info_last_activity info >? idle_timeout (manager_config m).

(** ** [config.py]: [Config.get] and [Config.set]

    The configuration data are what [yaml.safe_load] returns, taken as a
    tree: scalars ([None], booleans, integers and strings; [get] and [set]
    treat every other scalar as they treat these), lists, and dictionaries
    with string keys in insertion order, no sub-dictionary shared between
    two places. *)

#[warnings="-register-all"]
Inductive ConfigValue : Type :=
| CNone
| CBool (b : bool)
| CInt (n : Z)
| CStr (s : pystr)
| CList (l : list ConfigValue)
| CDict (d : list (pystr * ConfigValue)).

(** [d[k]] on a dictionary: [None] where Python raises [KeyError]. *)
Fixpoint dict_get (k : pystr) (d : list (pystr * ConfigValue)) : option ConfigValue :=
  match d with
  | [] => None
  | (k', v) :: r => if bool_decide (k = k') then Some v else dict_get k r
  end.

(** [d[k] = v]: the value of an existing key is replaced in place, a new
    key goes to the end. *)
Fixpoint dict_set (k : pystr) (v : ConfigValue) (d : list (pystr * ConfigValue))
  : list (pystr * ConfigValue) :=
  match d with
  | [] => [(k, v)]
  | (k', v') :: r =>
      if bool_decide (k = k') then (k', v) :: r else (k', v') :: dict_set k v r
  end.

(** [key.split('.')]: never empty; an empty key gives one empty part. *)
Fixpoint split_dot (key : pystr) : list pystr :=
  match key with
  | [] => [[]]
  | c :: r =>
      if c =? 46 then [] :: split_dot r
      else match split_dot r with
           | p :: ps => (c :: p) :: ps
           | [] => [[c]]
           end
  end.

(** The loop [for k in keys: value = value[k]] of [Config.get]: [None]
    where it raises [KeyError] or [TypeError] (a key that is missing, or a
    value on the way that is not a dictionary). *)
Fixpoint config_walk (keys : list pystr) (value : ConfigValue) : option ConfigValue :=
  match keys with
  | [] => Some value
  | k :: ks =>
      match value with
      | CDict d =>
          match dict_get k d with
          | Some v => config_walk ks v
          | None => None
          end
      | _ => None
      end
  end.

(** [Config.get]: the data are [self._data]. *)
Definition Config_get (data : ConfigValue) (key : pystr) (default : ConfigValue)
  : ConfigValue :=
  match config_walk (split_dot key) data with
  | Some v => v
  | None => default
  end.

(** The body of [Config.set] on the list of keys: the data after the call,
    [None] where Python raises [TypeError] (a value on the way, or the
    value to assign into, is not a dictionary); the data are then
    unchanged. *)
Fixpoint config_set_path (keys : list pystr) (value : ConfigValue)
    (data : ConfigValue) : option ConfigValue :=
  match keys with
  | [] => None
  | k :: ks =>
      match data with
      | CDict d =>
          match ks with
          | [] => Some (CDict (dict_set k value d))
          | _ :: _ =>
              let sub := match dict_get k d with
                         | Some v => v
                         | None => CDict []
                         end in
              match config_set_path ks value sub with
              | Some sub' => Some (CDict (dict_set k sub' d))
              | None => None
              end
          end
      | _ => None
      end
  end.

(** [Config.set] *)
Definition Config_set (data : ConfigValue) (key : pystr) (value : ConfigValue)
  : option ConfigValue :=
  config_set_path (split_dot key) value data.

(** Whether a value is a dictionary. *)
Definition is_dict (v : ConfigValue) : bool :=
  match v with CDict _ => true | _ => false end.

(** * Properties *)

(** ** Little-endian integers *)

Lemma le_value_le_bytes (n : nat) (v : Z) :
  le_value (le_bytes n v) = v mod 256 ^ Z.of_nat n.
Proof.
  revert v. induction n as [|n IH]; intros v.
  - simpl. now rewrite Z.mod_1_r.
  - cbn [le_bytes le_value]. rewrite IH.
    rewrite Nat2Z.inj_succ, Z.pow_succ_r by lia.
    rewrite Z.rem_mul_r by lia. reflexivity.
Qed.

Lemma pack_uint_ok (n : nat) (v : Z) :
  0 <= v < 256 ^ Z.of_nat n -> pack_uint n v = Ok (le_bytes n v).
Proof.
  intros [H0 H1]. unfold pack_uint.
  apply Z.leb_le in H0. apply Z.ltb_lt in H1. now rewrite H0, H1.
Qed.

Lemma unpack_uint_length (n : nat) (bs : bytes) :
  List.length bs = n -> unpack_uint n bs = Ok (le_value bs).
Proof. intros H. unfold unpack_uint. now rewrite H, Nat.eqb_refl. Qed.

Lemma length_le_bytes (n : nat) (v : Z) : List.length (le_bytes n v) = n.
Proof. revert v. induction n; intros; simpl; auto. Qed.

Lemma unpack_pack (n : nat) (v : Z) :
  0 <= v < 256 ^ Z.of_nat n -> unpack_uint n (le_bytes n v) = Ok v.
Proof.
  intros H. unfold unpack_uint.
  rewrite length_le_bytes, Nat.eqb_refl, le_value_le_bytes.
  now rewrite Z.mod_small.
Qed.

(** C6. For every natural number [v] below [2^64], the encoder returns the
    minimum-length form of [v] (one octet below 251, tag 0xFC and 2 octets
    below 65536, tag 0xFD and 3 octets below 16777216, tag 0xFE and 8 octets
    otherwise), and decoding that form, whatever follows it in the stream,
    gives [v] back and leaves what follows unread. *)
Theorem lei_roundtrip_minimal (v : Z) (rest : bytes) :
  0 <= v < 2 ^ 64 ->
  _encode_length_encoded_int v = Ok (lei_minimal_form v)
  /\ _decode_length_encoded_int (lei_minimal_form v ++ rest) = Ok (v, rest)
  /\ Z.of_nat (List.length (lei_minimal_form v))
     = (if v <? 251 then 1 else if v <? 65536 then 3
        else if v <? 16777216 then 4 else 9).
Proof.
  intros [Hlo Hhi].
  unfold _encode_length_encoded_int, lei_minimal_form.
  destruct (v <? 251) eqn:E1.
  { apply Z.ltb_lt in E1. split; [|split]; [| |reflexivity].
    - rewrite pack_uint_ok by (simpl; lia). simpl.
      now rewrite Z.mod_small by lia.
    - simpl. apply Z.ltb_lt in E1. now rewrite E1. }
  apply Z.ltb_ge in E1.
  destruct (v <? 65536) eqn:E2.
  { apply Z.ltb_lt in E2. split; [|split]; [| |reflexivity].
    - rewrite (pack_uint_ok 2 v) by (simpl; lia). reflexivity.
    - cbn -[Z.div Z.modulo Z.mul Z.add].
      change (unpack_uint 2 (le_bytes 2 v) ≫= (fun x => Ok (x, rest)) = Ok (v, rest)).
      rewrite unpack_pack by (simpl; lia). reflexivity. }
  apply Z.ltb_ge in E2.
  destruct (v <? 16777216) eqn:E3.
  { apply Z.ltb_lt in E3. split; [|split]; [| |reflexivity].
    - rewrite (pack_uint_ok 4 v) by (simpl; lia). reflexivity.
    - cbn -[Z.div Z.modulo Z.mul Z.add].
      assert (H4 : v / 256 / 256 / 256 mod 256 = 0).
      { rewrite !Z.div_div by lia. rewrite Z.div_small by lia. reflexivity. }
      change (unpack_uint 4 (le_bytes 3 v ++ [0]) ≫= (fun x => Ok (x, rest))
              = Ok (v, rest)).
      replace (le_bytes 3 v ++ [0]) with (le_bytes 4 v)
        by (cbn -[Z.div Z.modulo]; now rewrite H4).
      rewrite unpack_pack by (simpl; lia). reflexivity. }
  apply Z.ltb_ge in E3.
  split; [|split]; [| |reflexivity].
  - rewrite (pack_uint_ok 8 v) by (simpl; lia). reflexivity.
  - cbn -[Z.div Z.modulo Z.mul Z.add].
    change (unpack_uint 8 (le_bytes 8 v) ≫= (fun x => Ok (x, rest)) = Ok (v, rest)).
    rewrite unpack_pack by (simpl; lia). reflexivity.
Qed.

(** ** Null-terminated fields *)

Lemma read_cstring_terminated (u rest : bytes) :
  no_nul u -> read_cstring (u ++ 0 :: rest) = (u, rest).
Proof.
  induction 1 as [|b u Hb _ IH]; simpl.
  - reflexivity.
  - apply Z.eqb_neq in Hb. now rewrite Hb, IH.
Qed.


(** ** The fixed head of a handshake response *)

(** Past a well-sized head, [parse_handshake_response] is [parse_body] on
    the rest of the payload. *)
Lemma parse_handshake_response_head caps4 mps4 charset reserved body seq :
  List.length caps4 = 4%nat -> List.length mps4 = 4%nat ->
  List.length reserved = 23%nat ->
  parse_handshake_response
    (mkPacket (response_head caps4 mps4 charset reserved ++ body) seq)
  = parse_body (le_value caps4) (le_value mps4) charset body.
Proof.
  intros Hc Hm Hr.
  unfold parse_handshake_response, response_head. cbn [payload].
  rewrite (proj2 (Z.ltb_ge _ _)) by (rewrite !length_app; cbn [List.length]; lia).
  unfold stream_read. rewrite <- !app_assoc.
  rewrite (take_app_length' caps4), (drop_app_length' caps4) by now symmetry.
  cbv beta iota.
  rewrite (unpack_uint_length 4 caps4) by assumption. cbn [mbind Res_bind].
  rewrite (take_app_length' mps4), (drop_app_length' mps4) by now symmetry.
  cbv beta iota.
  rewrite (unpack_uint_length 4 mps4) by assumption. cbn [mbind Res_bind].
  cbn [app firstn skipn]. rewrite take_0, drop_0.
  rewrite (unpack_uint_length 1 [charset]) by reflexivity. cbn [mbind Res_bind].
  rewrite (drop_app_length' reserved) by now symmetry.
  replace (le_value [charset]) with charset by (simpl; lia).
  reflexivity.
Qed.

Lemma lei_roundtrip_minimal_witness :
  _encode_length_encoded_int 300 = Ok [0xfc; 44; 1]
  /\ _decode_length_encoded_int [0xfc; 44; 1] = Ok (300, []).
Proof.
  destruct (lei_roundtrip_minimal 300 [] ltac:(lia)) as (H1 & H2 & _).
  split; [exact H1 | exact H2].
Defined.

(** The tag switches at 251, 65536 and 16777216. *)
Example lei_boundaries :
  _encode_length_encoded_int 250 = Ok [250]
  /\ _encode_length_encoded_int 251 = Ok [0xfc; 251; 0]
  /\ _encode_length_encoded_int 65535 = Ok [0xfc; 255; 255]
  /\ _encode_length_encoded_int 65536 = Ok [0xfd; 0; 0; 1]
  /\ _encode_length_encoded_int 16777215 = Ok [0xfd; 255; 255; 255]
  /\ _encode_length_encoded_int 16777216 = Ok [0xfe; 0; 0; 0; 1; 0; 0; 0; 0].
Proof. repeat split. Qed.

(** C10. A stream whose first octet is 0xFB or 0xFF makes
    [_decode_length_encoded_int] raise a [ProtocolError], whatever follows;
    so a handshake response that announces a length-encoded [auth_data] and
    puts 0xFB (the row NULL marker) or 0xFF where the length starts is never
    parsed: the parse raises, and with a decodable user name what it raises
    is that [ProtocolError]. *)
Theorem decode_rejects_null_and_reserved_tag (tag : Z) (rest : bytes) :
  tag = 0xfb \/ tag = 0xff ->
  _decode_length_encoded_int (tag :: rest)
  = Raise (ProtocolError (lit "Invalid length-encoded integer: " ++ str_of_int tag))
  /\ forall caps4 mps4 charset reserved u seq,
       List.length caps4 = 4%nat -> List.length mps4 = 4%nat ->
       List.length reserved = 23%nat -> no_nul u ->
       has_flag (le_value caps4) CLIENT_PLUGIN_AUTH_LENENC_CLIENT_DATA = true ->
       let r := parse_handshake_response
                  (mkPacket (response_head caps4 mps4 charset reserved
                             ++ u ++ 0 :: tag :: rest) seq) in
       is_ok r = false
       /\ (is_Some (utf8_decode u) -> is_protocol_error r = true).
Proof.
  intros Htag.
  assert (Hdec : _decode_length_encoded_int (tag :: rest)
                 = Raise (ProtocolError (lit "Invalid length-encoded integer: "
                                         ++ str_of_int tag))).
  { destruct Htag as [-> | ->]; reflexivity. }
  split; [exact Hdec|].
  intros caps4 mps4 charset reserved u seq Hc Hm Hr Hu Hflag r. subst r.
  rewrite parse_handshake_response_head by assumption.
  unfold parse_body. rewrite read_cstring_terminated by assumption.
  unfold decode_utf8. destruct (utf8_decode u) as [s|] eqn:Eu.
  - cbn [mbind Res_bind]. rewrite Hflag, Hdec. cbn. split; [reflexivity|auto].
  - cbn. split; [reflexivity|]. intros [x Hx]. discriminate Hx.
Qed.

Lemma decode_rejects_null_and_reserved_tag_witness :
  _decode_length_encoded_int [0xfb; 0x41]
  = Raise (ProtocolError (lit "Invalid length-encoded integer: 251")).
Proof.
  apply (proj1 (decode_rejects_null_and_reserved_tag 0xfb [0x41] (or_introl eq_refl))).
Defined.




(** ** The server greeting *)

(** C9. For every server version and plugin name (encodable as UTF-8) and
    every connection id that fits 32 bits, [build_handshake] returns the
    packet whose payload is the protocol octet 0x0A, the server version and
    its terminator, the connection id as four little-endian octets, the
    seed and flag fields, and last the plugin name and its terminator; the
    packet takes the builder's current sequence id.  The capability word
    made of the two halves written includes PROTOCOL_41, SECURE_CONNECTION,
    CONNECT_WITH_DB and PLUGIN_AUTH.  Leaving the plugin name out is the
    same as passing [mysql_native_password]. *)
Theorem build_handshake_layout
    (b : PacketBuilder) (v p : pystr) (id : Z) (vb pb : bytes) :
  utf8_encode v = Some vb -> utf8_encode p = Some pb -> 0 <= id < 2 ^ 32 ->
  build_handshake b (Some v) (Some id) (Some p)
  = Ok (mkPacket (handshake_payload vb id pb) (builder_sequence_id b),
        mkBuilder ((builder_sequence_id b + 1) mod 256))
  /\ (Z.land capability_word 0x0200 = 0x0200
      /\ Z.land capability_word 0x8000 = 0x8000
      /\ Z.land capability_word 0x0008 = 0x0008
      /\ Z.land capability_word 0x80000 = 0x80000)
  /\ build_handshake b (Some v) (Some id) None
     = build_handshake b (Some v) (Some id) (Some (lit "mysql_native_password")).
Proof.
  intros Hv Hp Hid. split; [|split; [|reflexivity]].
  - unfold build_handshake, encode_utf8.
    cbv beta zeta iota delta [default from_option Datatypes.id].
    rewrite Hv, Hp. rewrite (pack_uint_ok 4 id) by (simpl; lia).
    reflexivity.
  - vm_compute. auto.
Qed.

Lemma build_handshake_layout_witness :
  build_handshake PacketBuilder_init (Some (lit "8.0.0-hchdb")) (Some 1)
                  (Some (lit "mysql_native_password"))
  = Ok (mkPacket (handshake_payload (lit "8.0.0-hchdb") 1
                                    (lit "mysql_native_password")) 0,
        mkBuilder 1).
Proof.
  apply (proj1 (build_handshake_layout PacketBuilder_init
                  (lit "8.0.0-hchdb") (lit "mysql_native_password") 1
                  (lit "8.0.0-hchdb") (lit "mysql_native_password")
                  eq_refl eq_refl (conj (Z.le_0_1) eq_refl))).
Defined.

(** ** Admission *)

Lemma cleanup_connection_connections (m : ConnectionManager) (cid : Z) :
  _connections (_cleanup_connection m cid).1 = delete cid (_connections m)
  /\ _max_connections (_cleanup_connection m cid).1 = _max_connections m.
Proof.
  unfold _cleanup_connection.
  destruct (_connections m !! cid) as [info|] eqn:E.
  - destruct (_active_handlers (set_connections _ m) !! cid); simpl; auto.
  - destruct (_active_handlers m !! cid); simpl;
      rewrite delete_id by assumption; auto.
Qed.

Lemma cleanup_connection_within_cap (m : ConnectionManager) (cid : Z) :
  within_cap m -> within_cap (_cleanup_connection m cid).1.
Proof.
  unfold within_cap. intros H.
  destruct (cleanup_connection_connections m cid) as [-> ->].
  rewrite map_size_delete. destruct (_connections m !! cid); simpl; lia.
Qed.

Lemma cleanup_connection_max (m : ConnectionManager) (cid : Z) :
  _max_connections (_cleanup_connection m cid).1 = _max_connections m.
Proof. apply cleanup_connection_connections. Qed.

Lemma cleanup_fold_within_cap (ids : list Z) (m : ConnectionManager) :
  within_cap m ->
  within_cap (fold_left (fun m cid => (_cleanup_connection m cid).1) ids m).
Proof.
  revert m. induction ids as [|cid ids IH]; intros m H; simpl; [assumption|].
  apply IH. now apply cleanup_connection_within_cap.
Qed.

Lemma cleanup_fold_max (ids : list Z) (m : ConnectionManager) :
  _max_connections (fold_left (fun m cid => (_cleanup_connection m cid).1) ids m)
  = _max_connections m.
Proof.
  revert m. induction ids as [|cid ids IH]; intros m; simpl; [reflexivity|].
  rewrite IH. apply cleanup_connection_max.
Qed.

Lemma manager_step_within_cap (m m' : ConnectionManager) :
  manager_step m m' -> within_cap m ->
  within_cap m' /\ _max_connections m' = _max_connections m.
Proof.
  intros Hstep H. destruct Hstep.
  - unfold handle_new_connection.
    destruct (Z.of_nat (size (_connections m)) >=? _max_connections m) eqn:E;
      simpl; [auto|].
    split; [|reflexivity]. unfold within_cap in *. simpl.
    rewrite Z.geb_leb in E. apply Z.leb_gt in E.
    rewrite map_size_insert.
    destruct (_connections m !! _next_connection_id m); simpl; lia.
  - split; [now apply cleanup_connection_within_cap | apply cleanup_connection_max].
  - unfold _handle_connection.
    destruct (handle_connection (task_reader t) (task_handler t)) as [r handler].
    destruct (_active_handlers m !! info_connection_id (task_connection_info t)).
    + split; [now apply cleanup_connection_within_cap|].
      now rewrite cleanup_connection_max.
    + split; [now apply cleanup_connection_within_cap | apply cleanup_connection_max].
  - unfold _cleanup_idle_connections.
    split; [now apply cleanup_fold_within_cap | apply cleanup_fold_max].
  - unfold update_connection_activity.
    destruct (_connections m !! connection_id0) as [info|] eqn:E; [|auto].
    split; [|reflexivity]. unfold within_cap in *. simpl.
    rewrite map_size_insert_Some by eauto. assumption.
  - unfold update_connection_auth.
    destruct (_connections m !! connection_id0) as [info|] eqn:E; [|auto].
    split; [|reflexivity]. unfold within_cap in *. simpl.
    rewrite map_size_insert_Some by eauto. assumption.
Qed.

Lemma reachable_within_cap (cfg : Config) (m : ConnectionManager) :
  0 <= max_connections cfg -> manager_reachable cfg m ->
  within_cap m /\ _max_connections m = max_connections cfg.
Proof.
  intros Hmax Hr. induction Hr as [now|m m' Hr [IH1 IH2] Hstep].
  - split; [|reflexivity]. unfold within_cap. simpl.
    rewrite map_size_empty. simpl. assumption.
  - destruct (manager_step_within_cap m m' Hstep IH1) as [H1 H2].
    split; [assumption | congruence].
Qed.

(** C8. When the number of tracked connections equals [_max_connections],
    [handle_new_connection] closes the socket having written nothing on it
    and creates no session (so no handshake is ever sent), counts exactly
    one more rejection, and leaves the connections map, the handlers, the
    next connection id and the total as they were.  Consequently, for a
    manager built from a configuration with a non-negative cap, every
    reachable state tracks at most [_max_connections] connections. *)
Theorem admission_cap :
  (forall (m : ConnectionManager) (reader : list Packet) (w : Writer) (t1 t2 : Z),
     Z.of_nat (size (_connections m)) = _max_connections m ->
     let r := handle_new_connection m reader w t1 t2 in
     written r.1.2 = written w /\ is_closing r.1.2 = true /\ r.2 = None
     /\ rejected_connections r.1.1 = rejected_connections m + 1
     /\ _connections r.1.1 = _connections m
     /\ _active_handlers r.1.1 = _active_handlers m
     /\ _next_connection_id r.1.1 = _next_connection_id m
     /\ total_connections r.1.1 = total_connections m)
  /\ (forall (cfg : Config) (m : ConnectionManager),
        0 <= max_connections cfg -> manager_reachable cfg m ->
        Z.of_nat (size (_connections m)) <= _max_connections m).
Proof.
  split.
  - intros m reader w t1 t2 Hfull r. subst r. unfold handle_new_connection.
    rewrite Hfull. rewrite Z.geb_leb, Z.leb_refl. simpl. repeat split.
  - intros cfg m Hmax Hr. exact (proj1 (reachable_within_cap cfg m Hmax Hr)).
Qed.

Lemma admission_cap_witness :
  (let r := handle_new_connection full_manager [] fresh_writer 1 1 in
   written r.1.2 = [] /\ is_closing r.1.2 = true /\ r.2 = None
   /\ rejected_connections r.1.1 = 1)
  /\ Z.of_nat (size (_connections full_manager)) <= 1.
Proof.
  split.
  - pose proof (proj1 admission_cap full_manager [] fresh_writer 1 1 eq_refl)
      as (Hw & Hc & Ht & Hrej & _).
    repeat split; assumption.
  - refine (proj2 admission_cap cap1_config full_manager _ _).
    + discriminate.
    + eapply reachable_step; [apply (reachable_init _ 0)|].
      apply step_new_connection.
Defined.

(** ** The session on concrete connections *)


(** C1, at a failing input.  [admin] is configured with the non-empty
    password [secret]; [_authenticate_user] accepts [admin] with any
    [auth_data] at all, the empty one included, so it accepts credentials
    that do not match. *)
Theorem authenticate_user_accepts_any_auth_data (auth_data : bytes) :
  users_config demo_config !! lit "admin" = Some {[ lit "password" := lit "secret" ]}
  /\ _authenticate_user demo_config (login_info (lit "admin") auth_data) = true.
Proof. split; reflexivity. Qed.

Lemma run_bind {A B} (m : M A) (k : A -> M B) (h : Handler) :
  (m ≫= k) h
  = match m h with
    | (Ok a, h') => k a h'
    | (Raise e, h') => (Raise e, h')
    end.
Proof. reflexivity. Qed.

(** A packet that fits one frame and has a one-octet sequence id is
    written. *)
Lemma write_packet_ok (p : Packet) (h : Handler) :
  Z.of_nat (List.length (payload p)) <= 0xffffff ->
  0 <= sequence_id p < 256 ->
  _write_packet p h = (Ok tt, set_writer (writer_write p (writer h)) h).
Proof.
  intros Hlen Hseq. unfold _write_packet, to_bytes.
  destruct (Z.of_nat (List.length (payload p)) >? 0xffffff) eqn:E.
  { apply Z.gtb_lt in E. lia. }
  rewrite (pack_uint_ok 4) by (change (256 ^ Z.of_nat 4) with 4294967296; lia).
  rewrite (pack_uint_ok 1) by (change (256 ^ Z.of_nat 1) with 256; lia).
  reflexivity.
Qed.

(** The reply to a PING takes the sequence id the builder holds, whatever
    it is, and advances it by one; nothing sets it back to 0 first. *)
Lemma process_command_ping (body : bytes) (seq : Z) (h : Handler) :
  0 <= builder_sequence_id (packet_builder h) < 256 ->
  let s := builder_sequence_id (packet_builder h) in
  let r := _process_command (mkPacket (COM_PING :: body) seq) h in
  r.1 = Ok tt
  /\ written (writer r.2) = written (writer h) ++ [mkPacket ok_payload s]
  /\ packet_builder r.2 = mkBuilder ((s + 1) mod 256).
Proof.
  intros Hs s r. subst s r.
  unfold _process_command. cbn [payload].
  change (COM_PING =? COM_QUIT) with false.
  change (COM_PING =? COM_QUERY) with false.
  change (COM_PING =? COM_PING) with true. cbv iota.
  unfold _handle_ping, send_ok. rewrite run_bind.
  unfold with_builder.
  change (build_ok (packet_builder h) 0 0 2 0 [])
    with (Ok (mkPacket ok_payload (builder_sequence_id (packet_builder h)),
              mkBuilder ((builder_sequence_id (packet_builder h) + 1) mod 256))).
  cbv iota beta. rewrite write_packet_ok.
  - cbn [fst snd]. auto.
  - vm_compute. discriminate.
  - exact Hs.
Qed.


(** [COM_QUIT], whatever follows the command octet, is answered with
    nothing and changes nothing in the handler. *)
Lemma process_command_quit (body : bytes) (seq : Z) (h : Handler) :
  _process_command (mkPacket (COM_QUIT :: body) seq) h = (Ok tt, h).
Proof. reflexivity. Qed.

(** After [COM_QUIT] the command loop goes on with the next read. *)
Lemma handle_commands_quit (body : bytes) (seq : Z) (rest : list Packet) (h : Handler) :
  _handle_commands (mkPacket (COM_QUIT :: body) seq :: rest) h
  = _handle_commands rest
      (set_reads (reads h ++ [Some (mkPacket (COM_QUIT :: body) seq)]) h).
Proof. reflexivity. Qed.




(** ** The frame length of [_read_packet] *)

(** The length read from a header is its three length octets plus the
    value of the four literal characters, shifted past them. *)
Lemma read_packet_length_value (h0 h1 h2 h3 : Z) :
  read_packet_length [h0; h1; h2; h3]
  = h0 + 256 * h1 + 65536 * h2 + 16777216 * 0x3030785c.
Proof. unfold read_packet_length. cbn -[Z.mul Z.add]. lia. Qed.

(** * Further properties *)

(** ** UTF-8: what is encoded decodes to itself *)

Ltac decide_tests :=
  repeat match goal with
  | |- context [Z.leb ?x ?y] =>
      first [rewrite (proj2 (Z.leb_le x y)) by lia
            |rewrite (proj2 (Z.leb_gt x y)) by lia]
  | |- context [Z.ltb ?x ?y] =>
      first [rewrite (proj2 (Z.ltb_lt x y)) by lia
            |rewrite (proj2 (Z.ltb_ge x y)) by lia]
  | |- context [Z.eqb ?x ?y] =>
      first [rewrite (proj2 (Z.eqb_eq x y)) by lia
            |rewrite (proj2 (Z.eqb_neq x y)) by lia]
  end.

Ltac split_tests :=
  decide_tests;
  repeat match goal with
  | |- context [Z.leb ?x ?y] => destruct (Z.leb_spec x y); try lia; decide_tests
  | |- context [Z.ltb ?x ?y] => destruct (Z.ltb_spec x y); try lia; decide_tests
  | |- context [Z.eqb ?x ?y] => destruct (Z.eqb_spec x y); try lia; decide_tests
  end.

Lemma utf8_decode_encode_char (c : Z) (a rest : bytes) :
  utf8_encode_char c = Some a ->
  utf8_decode (a ++ rest) = cons c <$> utf8_decode rest.
Proof.
  unfold utf8_encode_char. intros H.
  destruct ((0 <=? c) && (c <? 0x80)) eqn:E1.
  { injection H as <-. cbn [app utf8_decode]. now rewrite E1. }
  destruct ((0x80 <=? c) && (c <? 0x800)) eqn:E2.
  { injection H as <-. apply andb_true_iff in E2 as [Ha Hb].
    apply Z.leb_le in Ha. apply Z.ltb_lt in Hb.
    pose proof (Z.div_mod c 64 ltac:(lia)) as Hdm.
    pose proof (Z.mod_pos_bound c 64 ltac:(lia)) as Hr.
    set (q := c / 64) in *. set (r := c mod 64) in *. clearbody q r.
    cbn [app utf8_decode]. unfold is_cont.
    split_tests; cbn [andb orb negb]; try lia.
    all: replace ((192 + q - 192) * 64 + (128 + r - 128)) with c by lia;
      reflexivity. }
  destruct ((0x800 <=? c) && (c <? 0x10000)) eqn:E3.
  { destruct ((0xD800 <=? c) && (c <=? 0xDFFF)) eqn:E4; [discriminate|].
    injection H as <-. apply andb_true_iff in E3 as [Ha Hb].
    apply Z.leb_le in Ha. apply Z.ltb_lt in Hb.
    apply andb_false_iff in E4.
    assert (Hs : c < 0xD800 \/ 0xDFFF < c).
    { destruct E4 as [E4|E4]; [apply Z.leb_gt in E4|apply Z.leb_gt in E4]; lia. }
    clear E4.
    replace (c / 4096) with (c / 64 / 64) by (rewrite Z.div_div by lia; reflexivity).
    pose proof (Z.div_mod c 64 ltac:(lia)) as Hdm.
    pose proof (Z.mod_pos_bound c 64 ltac:(lia)) as Hr.
    set (t := c / 64) in *. set (r := c mod 64) in *. clearbody t r.
    pose proof (Z.div_mod t 64 ltac:(lia)) as Hdm2.
    pose proof (Z.mod_pos_bound t 64 ltac:(lia)) as Hr2.
    set (q := t / 64) in *. set (r1 := t mod 64) in *. clearbody q r1.
    cbn [app utf8_decode]. unfold is_cont.
    split_tests; cbn [andb orb negb]; try lia.
    all: replace ((224 + q - 224) * 4096 + (128 + r1 - 128) * 64 + (128 + r - 128))
           with c by lia; reflexivity. }
  destruct ((0x10000 <=? c) && (c <? 0x110000)) eqn:E5; [|discriminate].
  injection H as <-. apply andb_true_iff in E5 as [Ha Hb].
  apply Z.leb_le in Ha. apply Z.ltb_lt in Hb.
  replace (c / 262144) with (c / 64 / 64 / 64)
    by (rewrite !Z.div_div by lia; reflexivity).
  replace (c / 4096) with (c / 64 / 64) by (rewrite Z.div_div by lia; reflexivity).
  pose proof (Z.div_mod c 64 ltac:(lia)) as Hdm.
  pose proof (Z.mod_pos_bound c 64 ltac:(lia)) as Hr.
  set (t := c / 64) in *. set (r := c mod 64) in *. clearbody t r.
  pose proof (Z.div_mod t 64 ltac:(lia)) as Hdm2.
  pose proof (Z.mod_pos_bound t 64 ltac:(lia)) as Hr2.
  set (u := t / 64) in *. set (r1 := t mod 64) in *. clearbody u r1.
  pose proof (Z.div_mod u 64 ltac:(lia)) as Hdm3.
  pose proof (Z.mod_pos_bound u 64 ltac:(lia)) as Hr3.
  set (q := u / 64) in *. set (r2 := u mod 64) in *. clearbody q r2.
  cbn [app utf8_decode]. unfold is_cont.
  split_tests; cbn [andb orb negb]; try lia.
  all: replace ((240 + q - 240) * 262144 + (128 + r2 - 128) * 4096
                + (128 + r1 - 128) * 64 + (128 + r - 128)) with c by lia;
    reflexivity.
Qed.

Lemma utf8_decode_encode (s : pystr) (bs : bytes) :
  utf8_encode s = Some bs -> utf8_decode bs = Some s.
Proof.
  revert bs. induction s as [|c s IH]; intros bs H; simpl in H.
  - now injection H as <-.
  - destruct (utf8_encode_char c) as [a|] eqn:Ec; [|discriminate].
    destruct (utf8_encode s) as [b|] eqn:Es; [|discriminate].
    injection H as <-.
    rewrite (utf8_decode_encode_char c a b Ec), (IH b eq_refl). reflexivity.
Qed.

(** ** Frames written and read back *)

Lemma to_bytes_frame (p : Packet) : fits_frame p -> to_bytes p = Ok (frame p).
Proof.
  intros [Hlen [Hs0 Hs1]]. unfold to_bytes, frame.
  destruct (Z.of_nat (List.length (payload p)) >? 0xffffff) eqn:E.
  { apply Z.gtb_lt in E. lia. }
  rewrite (pack_uint_ok 4) by (change (256 ^ Z.of_nat 4) with 4294967296; lia).
  rewrite (pack_uint_ok 1) by (change (256 ^ Z.of_nat 1) with 256; lia).
  cbn [mbind Res_bind le_bytes firstn]. try rewrite take_0.
  rewrite (Z.mod_small (sequence_id p)) by lia. reflexivity.
Qed.

Lemma le_value_3_0 (n : Z) :
  0 <= n <= 0xffffff -> le_value (le_bytes 3 n ++ [0]) = n.
Proof.
  intros H. change (le_bytes 3 n ++ [0]) with
    [n mod 256; n / 256 mod 256; n / 256 / 256 mod 256; 0].
  replace [n mod 256; n / 256 mod 256; n / 256 / 256 mod 256; 0]
    with (le_bytes 4 n).
  - rewrite le_value_le_bytes. apply Z.mod_small.
    change (256 ^ Z.of_nat 4) with 4294967296. lia.
  - cbn [le_bytes]. repeat f_equal.
    rewrite !Z.div_div by lia. rewrite Z.div_small by lia. reflexivity.
Qed.

Lemma from_bytes_frame (p : Packet) (extra : bytes) :
  fits_frame p -> from_bytes (frame p ++ extra) = Ok p.
Proof.
  intros [Hlen Hseq]. destruct p as [pl sq]. cbn [payload sequence_id] in *.
  unfold frame. cbn [payload sequence_id].
  set (n := Z.of_nat (List.length pl)) in *.
  assert (Hn : 0 <= n) by (subst n; lia).
  unfold from_bytes.
  rewrite (proj2 (Z.ltb_ge _ _))
    by (rewrite !length_app, length_le_bytes; cbn [List.length]; lia).
  change (le_bytes 3 n) with [n mod 256; n / 256 mod 256; n / 256 / 256 mod 256].
  cbn [app firstn skipn]. rewrite take_0.
  change [n mod 256; n / 256 mod 256; n / 256 / 256 mod 256; 0]
    with (le_bytes 3 n ++ [0]).
  rewrite (unpack_uint_length 4 (le_bytes 3 n ++ [0]))
    by (rewrite length_app, length_le_bytes; reflexivity).
  rewrite le_value_3_0 by lia. cbn [mbind Res_bind].
  rewrite (unpack_uint_length 1 [sq]) by reflexivity. cbn [mbind Res_bind].
  cbn [List.length le_value]. rewrite length_app, drop_0. fold n.
  rewrite (proj2 (Z.ltb_ge _ _)) by lia.
  replace (sq + 256 * 0) with sq by lia.
  subst n. rewrite Nat2Z.id, take_app_length. reflexivity.
Qed.

Lemma length_frame (p : Packet) :
  List.length (frame p) = (4 + List.length (payload p))%nat.
Proof. unfold frame. rewrite !length_app, length_le_bytes. reflexivity. Qed.

(** X1. What [to_bytes] wrote, [from_bytes] reads back, and it does not look
    at what follows the frame. *)
Theorem from_bytes_to_bytes (p : Packet) (extra : bytes) :
  fits_frame p ->
  exists data,
    to_bytes p = Ok data
    /\ Z.of_nat (List.length data) = 4 + Z.of_nat (List.length (payload p))
    /\ from_bytes (data ++ extra) = Ok p.
Proof.
  intros Hfit. exists (frame p). split; [now apply to_bytes_frame|].
  split; [rewrite length_frame; lia | now apply from_bytes_frame].
Qed.

Lemma from_bytes_to_bytes_witness :
  to_bytes (mkPacket [0x0e] 0) = Ok [1; 0; 0; 0; 0x0e]
  /\ from_bytes [1; 0; 0; 0; 0x0e] = Ok (mkPacket [0x0e] 0).
Proof.
  destruct (from_bytes_to_bytes (mkPacket [0x0e] 0) [])
    as (data & H1 & _ & H2).
  { split; cbn; lia. }
  assert (Hd : data = [1; 0; 0; 0; 0x0e]).
  { change (to_bytes (mkPacket [0x0e] 0)) with (@Ok bytes [1; 0; 0; 0; 0x0e]) in H1.
    now injection H1 as <-. }
  subst data. split; [exact H1 | exact H2].
Defined.

(** X2. [from_bytes] accepts exactly the data that hold a whole header and the
    whole payload it announces; what it rejects, it rejects with a
    [ProtocolError]. *)
Theorem from_bytes_ok_iff (data : bytes) :
  is_ok (from_bytes data)
  = (4 <=? Z.of_nat (List.length data))
    && (4 + le_value (firstn 3 data) <=? Z.of_nat (List.length data))
  /\ is_protocol_error (from_bytes data) = negb (is_ok (from_bytes data)).
Proof.
  unfold from_bytes.
  destruct (Z.ltb_spec (Z.of_nat (List.length data)) 4) as [Hs|Hs].
  { rewrite (proj2 (Z.leb_gt _ _)) by lia. split; reflexivity. }
  rewrite (proj2 (Z.leb_le 4 _)) by lia. cbn [andb].
  destruct data as [|b0 [|b1 [|b2 [|b3 rest]]]]; cbn [List.length] in Hs; try lia.
  cbn [firstn skipn app]. rewrite take_0.
  rewrite (unpack_uint_length 4 [b0; b1; b2; 0]) by reflexivity.
  rewrite (unpack_uint_length 1 [b3]) by reflexivity. cbn [mbind Res_bind].
  replace (le_value [b0; b1; b2; 0]) with (le_value [b0; b1; b2])
    by (cbn [le_value]; lia).
  destruct (Z.ltb_spec (Z.of_nat (List.length (b0 :: b1 :: b2 :: b3 :: rest)))
                       (4 + le_value [b0; b1; b2])) as [Ht|Ht].
  - rewrite (proj2 (Z.leb_gt _ _)) by lia. split; reflexivity.
  - rewrite (proj2 (Z.leb_le _ _)) by lia. split; reflexivity.
Qed.

(** X3. A whole frame at the head of a stream is read as its packet and the
    stream is left at the next frame; a frame cut short anywhere is not
    returned as a packet, and what there was of it is consumed. *)
Theorem read_from_stream_frame (p : Packet) (rest : bytes) (k : nat) :
  fits_frame p ->
  (k < List.length (frame p))%nat ->
  read_from_stream (frame p ++ rest) = (Some p, rest)
  /\ read_from_stream (firstn k (frame p)) = (None, []).
Proof.
  intros [Hlen Hseq] Hk. rewrite length_frame in Hk.
  destruct p as [pl sq]. cbn [payload sequence_id] in *.
  set (n := Z.of_nat (List.length pl)) in *.
  assert (Hn : 0 <= n) by (subst n; lia).
  unfold frame. cbn [payload sequence_id]. fold n.
  change (le_bytes 3 n) with [n mod 256; n / 256 mod 256; n / 256 / 256 mod 256].
  split.
  - unfold read_from_stream, stream_read. cbn [app firstn skipn List.length].
    rewrite ?take_0, ?drop_0. cbn [List.length].
    change (Z.of_nat 4 <? 4) with false. cbv iota.
    change [n mod 256; n / 256 mod 256; n / 256 / 256 mod 256; 0]
      with (le_bytes 3 n ++ [0]).
    rewrite (unpack_uint_length 4 (le_bytes 3 n ++ [0]))
      by (rewrite length_app, length_le_bytes; reflexivity).
    rewrite le_value_3_0 by lia.
    rewrite (unpack_uint_length 1 [sq]) by reflexivity.
    subst n. rewrite Nat2Z.id, take_app_length, drop_app_length.
    rewrite (proj2 (Z.ltb_ge _ _)) by lia.
    replace (le_value [sq]) with sq by (cbn [le_value]; lia). reflexivity.
  - unfold read_from_stream, stream_read.
    destruct (Nat.lt_ge_cases k 4) as [Hk4|Hk4].
    + rewrite (take_ge (firstn k _) 4)
        by (rewrite length_take; cbn [app List.length]; lia).
      rewrite (drop_ge (firstn k _) 4)
        by (rewrite length_take; cbn [app List.length]; lia).
      rewrite (proj2 (Z.ltb_lt _ _))
        by (rewrite length_take; cbn [app List.length]; lia).
      reflexivity.
    + do 4 (destruct k as [|k]; [lia|]). cbn [app firstn skipn List.length].
      rewrite ?take_0, ?drop_0. cbn [List.length].
      change (Z.of_nat 4 <? 4) with false. cbv iota.
      change [n mod 256; n / 256 mod 256; n / 256 / 256 mod 256; 0]
        with (le_bytes 3 n ++ [0]).
      rewrite (unpack_uint_length 4 (le_bytes 3 n ++ [0]))
        by (rewrite length_app, length_le_bytes; reflexivity).
      rewrite le_value_3_0 by lia.
      rewrite (unpack_uint_length 1 [sq]) by reflexivity.
      assert (Hkl : (k < List.length pl)%nat) by lia.
      subst n. rewrite Nat2Z.id.
      rewrite (take_ge (firstn k pl)) by (rewrite length_take; lia).
      rewrite (drop_ge (firstn k pl)) by (rewrite length_take; lia).
      rewrite (proj2 (Z.ltb_lt _ _)) by (rewrite length_take; lia).
      reflexivity.
Qed.

Lemma read_from_stream_frame_witness :
  read_from_stream (frame (mkPacket [0x0e] 0) ++ [1; 0; 0])
  = (Some (mkPacket [0x0e] 0), [1; 0; 0])
  /\ read_from_stream (firstn 4 (frame (mkPacket [0x0e] 0))) = (None, []).
Proof.
  apply (read_from_stream_frame (mkPacket [0x0e] 0) [1; 0; 0] 4).
  - split; cbn; lia.
  - vm_compute. lia.
Defined.

(** ** The sequence counter *)

(** X4. The ids claimed one after the other count up from the builder's value
    and wrap from 255 to 0; the builder ends [n] further on, modulo 256. *)
Theorem claim_ids_wrap (n : nat) (b : PacketBuilder) :
  0 <= builder_sequence_id b < 256 ->
  claim_ids n b
  = (map (fun i => (builder_sequence_id b + Z.of_nat i) mod 256) (seq 0 n),
     mkBuilder ((builder_sequence_id b + Z.of_nat n) mod 256)).
Proof.
  revert b. induction n as [|n IH]; intros [s] Hs; cbn [builder_sequence_id] in *.
  - cbn [claim_ids seq map Z.of_nat]. rewrite Z.add_0_r, Z.mod_small by lia.
    reflexivity.
  - cbn [claim_ids next_sequence_id builder_sequence_id].
    rewrite IH by (cbn [builder_sequence_id]; apply Z.mod_pos_bound; lia).
    cbn [builder_sequence_id seq map Z.of_nat].
    rewrite Z.add_0_r, (Z.mod_small s) by lia.
    f_equal.
    + f_equal. rewrite <- seq_shift, map_map. apply map_ext. intros i.
      rewrite Zplus_mod_idemp_l. f_equal. lia.
    + f_equal. rewrite Zplus_mod_idemp_l. f_equal. lia.
Qed.

Lemma claim_ids_wrap_witness :
  claim_ids 4 (mkBuilder 254) = ([254; 255; 0; 1], mkBuilder 2).
Proof.
  exact (claim_ids_wrap 4 (mkBuilder 254) ltac:(cbn; lia)).
Defined.

(** ** Length-encoded integers at the edges *)

(** X5. A multi-octet form cut short raises [struct.error]: the decoder never
    returns a value made of fewer octets than the tag announces.  At end of
    stream it returns 0. *)
Theorem decode_truncated (tag : Z) (w : nat) (rest : bytes) :
  lei_tag_width tag = Some w -> (List.length rest < w)%nat ->
  (exists text, _decode_length_encoded_int (tag :: rest) = Raise (StructError text))
  /\ _decode_length_encoded_int [] = Ok (0, []).
Proof.
  intros Hw Hlen. split; [|reflexivity].
  unfold lei_tag_width in Hw. unfold _decode_length_encoded_int, stream_read.
  destruct (Z.eqb_spec tag 0xfc) as [->|H1].
  { injection Hw as <-. cbn [Z.ltb Z.compare Pos.compare Pos.compare_cont Z.eqb Pos.eqb].
    unfold unpack_uint. rewrite length_take.
    replace (2 `min` List.length rest =? 2)%nat with false
      by (symmetry; apply Nat.eqb_neq; lia).
    cbn [mbind Res_bind]. eexists. reflexivity. }
  destruct (Z.eqb_spec tag 0xfd) as [->|H2].
  { injection Hw as <-. cbn [Z.ltb Z.compare Pos.compare Pos.compare_cont Z.eqb Pos.eqb].
    unfold unpack_uint. rewrite length_app, length_take. cbn [List.length].
    replace (3 `min` List.length rest + 1 =? 4)%nat with false
      by (symmetry; apply Nat.eqb_neq; lia).
    cbn [mbind Res_bind]. eexists. reflexivity. }
  destruct (Z.eqb_spec tag 0xfe) as [->|H3]; [|discriminate].
  injection Hw as <-. cbn [Z.ltb Z.compare Pos.compare Pos.compare_cont Z.eqb Pos.eqb].
  unfold unpack_uint. rewrite length_take.
  replace (8 `min` List.length rest =? 8)%nat with false
    by (symmetry; apply Nat.eqb_neq; lia).
  cbn [mbind Res_bind]. eexists. reflexivity.
Qed.

Lemma decode_truncated_witness :
  exists text, _decode_length_encoded_int [0xfc; 0x2c] = Raise (StructError text).
Proof.
  exact (proj1 (decode_truncated 0xfc 2 [0x2c] eq_refl (le_n 2))).
Defined.

(** The two halves of the length-encoded integer round trip, for use in
    the packet layouts. *)
Lemma encode_minimal_form (v : Z) :
  0 <= v < 2 ^ 64 -> _encode_length_encoded_int v = Ok (lei_minimal_form v).
Proof.
  intros [Hlo Hhi]. unfold _encode_length_encoded_int, lei_minimal_form.
  destruct (Z.ltb_spec v 251).
  { rewrite pack_uint_ok by (change (256 ^ Z.of_nat 1) with 256; lia).
    cbn [le_bytes]. now rewrite Z.mod_small by lia. }
  destruct (Z.ltb_spec v 65536).
  { rewrite (pack_uint_ok 2 v) by (change (256 ^ Z.of_nat 2) with 65536; lia).
    reflexivity. }
  destruct (Z.ltb_spec v 16777216).
  { rewrite (pack_uint_ok 4 v)
      by (change (256 ^ Z.of_nat 4) with 4294967296; lia).
    reflexivity. }
  rewrite (pack_uint_ok 8 v)
    by (change (256 ^ Z.of_nat 8) with 18446744073709551616;
        change (2 ^ 64) with 18446744073709551616 in Hhi; lia).
  reflexivity.
Qed.

Lemma decode_minimal_form (v : Z) (rest : bytes) :
  0 <= v < 2 ^ 64 ->
  _decode_length_encoded_int (lei_minimal_form v ++ rest) = Ok (v, rest).
Proof.
  intros [Hlo Hhi]. unfold lei_minimal_form.
  change (2 ^ 64) with 18446744073709551616 in Hhi.
  destruct (Z.ltb_spec v 251) as [H1|H1].
  { cbn [app _decode_length_encoded_int].
    now rewrite (proj2 (Z.ltb_lt v 251)) by lia. }
  destruct (Z.ltb_spec v 65536) as [H2|H2].
  { cbn [app]. unfold _decode_length_encoded_int, stream_read.
    cbn [Z.ltb Z.compare Pos.compare Pos.compare_cont Z.eqb Pos.eqb].
    rewrite take_app_length', drop_app_length' by (now rewrite length_le_bytes).
    rewrite unpack_pack by (change (256 ^ Z.of_nat 2) with 65536; lia).
    reflexivity. }
  destruct (Z.ltb_spec v 16777216) as [H3|H3].
  { cbn [app]. unfold _decode_length_encoded_int, stream_read.
    cbn [Z.ltb Z.compare Pos.compare Pos.compare_cont Z.eqb Pos.eqb].
    rewrite take_app_length', drop_app_length' by (now rewrite length_le_bytes).
    rewrite (unpack_uint_length 4)
      by (rewrite length_app, length_le_bytes; reflexivity).
    rewrite le_value_3_0 by lia. reflexivity. }
  cbn [app]. unfold _decode_length_encoded_int, stream_read.
  cbn [Z.ltb Z.compare Pos.compare Pos.compare_cont Z.eqb Pos.eqb].
  rewrite take_app_length', drop_app_length' by (now rewrite length_le_bytes).
  rewrite unpack_pack
    by (change (256 ^ Z.of_nat 8) with 18446744073709551616; lia).
  reflexivity.
Qed.

(** ** Packet layouts read back *)

(** X6. An OK packet carries its two counters as length-encoded integers that
    decode, one after the other, to the values given, followed by the
    status flags, the warning count and the info text; it takes the
    builder's sequence id. *)
Theorem build_ok_layout (b : PacketBuilder)
    (affected_rows last_insert_id status_flags warnings : Z)
    (info : pystr) (ib : bytes) :
  0 <= affected_rows < 2 ^ 64 -> 0 <= last_insert_id < 2 ^ 64 ->
  0 <= status_flags < 65536 -> 0 <= warnings < 65536 ->
  utf8_encode info = Some ib ->
  let tail := le_bytes 2 status_flags ++ le_bytes 2 warnings ++ ib in
  build_ok b affected_rows last_insert_id status_flags warnings info
  = Ok (mkPacket (0 :: lei_minimal_form affected_rows
                    ++ lei_minimal_form last_insert_id ++ tail)
                 (builder_sequence_id b),
        mkBuilder ((builder_sequence_id b + 1) mod 256))
  /\ _decode_length_encoded_int
       (lei_minimal_form affected_rows ++ lei_minimal_form last_insert_id ++ tail)
     = Ok (affected_rows, lei_minimal_form last_insert_id ++ tail)
  /\ _decode_length_encoded_int (lei_minimal_form last_insert_id ++ tail)
     = Ok (last_insert_id, tail).
Proof.
  intros Ha Hl Hs Hw Hi tail. split; [|split; now apply decode_minimal_form].
  unfold build_ok.
  rewrite (encode_minimal_form affected_rows), (encode_minimal_form last_insert_id)
    by assumption.
  rewrite (pack_uint_ok 2 status_flags), (pack_uint_ok 2 warnings)
    by (change (256 ^ Z.of_nat 2) with 65536; lia).
  cbn [mbind Res_bind pack_uint].
  change (pack_uint 1 0) with (Ok [0]). cbn [mbind Res_bind].
  assert (He : match info with [] => Ok [] | _ :: _ => encode_utf8 info end = Ok ib).
  { unfold encode_utf8. rewrite Hi. destruct info; [|reflexivity].
    cbn in Hi. now injection Hi as <-. }
  rewrite He. cbn [mbind Res_bind next_sequence_id app]. reflexivity.
Qed.

Lemma build_ok_layout_witness :
  build_ok (mkBuilder 1) 300 0 2 0 []
  = Ok (mkPacket [0; 0xfc; 44; 1; 0; 2; 0; 0; 0] 1, mkBuilder 2).
Proof.
  exact (proj1 (build_ok_layout (mkBuilder 1) 300 0 2 0 [] []
                 ltac:(lia) ltac:(lia) ltac:(lia) ltac:(lia) eq_refl)).
Defined.

Lemma decode_utf8_encode (s : pystr) (bs : bytes) :
  utf8_encode s = Some bs -> decode_utf8 bs = Ok s.
Proof. intros H. unfold decode_utf8. now rewrite (utf8_decode_encode s bs H). Qed.

(** ** The test client against the server's codec *)

(** X7. A frame the client sends is the frame [to_bytes] builds for the same
    packet, and [from_bytes] reads it back. *)
Theorem send_packet_read_back (pl : bytes) (seq : Z) :
  fits_frame (mkPacket pl seq) ->
  send_packet pl seq = to_bytes (mkPacket pl seq)
  /\ (data ← send_packet pl seq; from_bytes data) = Ok (mkPacket pl seq).
Proof.
  intros Hfit. pose proof Hfit as [Hlen Hseq]. cbn [payload sequence_id] in *.
  assert (Hs : send_packet pl seq = Ok (frame (mkPacket pl seq))).
  { unfold send_packet, frame. cbn [payload sequence_id].
    rewrite (pack_uint_ok 4) by (change (256 ^ Z.of_nat 4) with 4294967296; lia).
    rewrite (pack_uint_ok 1) by (change (256 ^ Z.of_nat 1) with 256; lia).
    cbn [mbind Res_bind le_bytes firstn]. rewrite ?take_0.
    rewrite (Z.mod_small seq) by lia. reflexivity. }
  split.
  - now rewrite Hs, to_bytes_frame.
  - rewrite Hs. cbn [mbind Res_bind].
    rewrite <- (app_nil_r (frame _)). now apply from_bytes_frame.
Qed.

Lemma send_packet_read_back_witness :
  (data ← send_packet [0x03; 0x41] 0; from_bytes data) = Ok (mkPacket [0x03; 0x41] 0).
Proof.
  apply (send_packet_read_back [0x03; 0x41] 0). split; cbn; lia.
Defined.

(** X8. A query the client packs is the query [parse_query] returns. *)
Theorem parse_query_roundtrip (query : pystr) (pl : bytes) (seq : Z) :
  create_query_packet query = Ok pl ->
  parse_query (mkPacket pl seq) = Ok query.
Proof.
  unfold create_query_packet, encode_utf8.
  change (pack_uint 1 3) with (Ok [3]). cbn [mbind Res_bind].
  destruct (utf8_encode query) as [qb|] eqn:E; [|discriminate].
  cbn [mbind Res_bind app]. intros H. injection H as <-.
  unfold parse_query. cbn [payload].
  change (negb (3 =? COM_QUERY)) with false. cbv iota.
  now apply decode_utf8_encode.
Qed.

Lemma parse_query_roundtrip_witness :
  parse_query (mkPacket (3 :: lit "SHOW TABLES") 0) = Ok (lit "SHOW TABLES").
Proof.
  apply (parse_query_roundtrip (lit "SHOW TABLES") (3 :: lit "SHOW TABLES") 0).
  reflexivity.
Defined.

Lemma decode_plugin_name :
  decode_utf8 (lit "mysql_native_password") = Ok (lit "mysql_native_password").
Proof. reflexivity. Qed.

Lemma no_nul_plugin_name : no_nul (lit "mysql_native_password").
Proof. unfold no_nul. repeat constructor; discriminate. Qed.

Lemma auth_response_payload (user password database : pystr) (ub dbb : bytes) :
  utf8_encode user = Some ub ->
  utf8_encode database = Some dbb ->
  create_auth_response user password database
  = Ok (response_head (le_bytes 4 auth_response_capabilities)
                      (le_bytes 4 16777216) 33 (repeat 0 23%nat)
        ++ ub ++ 0 :: 0 :: (match database with [] => [] | _ => dbb ++ [0] end)
        ++ lit "mysql_native_password" ++ [0]).
Proof.
  intros Hu Hd. unfold create_auth_response, encode_utf8. rewrite Hu.
  change (pack_uint 4 auth_response_capabilities)
    with (Ok (le_bytes 4 auth_response_capabilities)).
  change (pack_uint 4 16777216) with (Ok (le_bytes 4 16777216)).
  change (pack_uint 1 33) with (Ok [33]). change (pack_uint 1 0) with (Ok [0]).
  cbn [mbind Res_bind].
  destruct database as [|c d].
  - cbn [mbind Res_bind]. unfold response_head.
    rewrite <- !app_assoc. reflexivity.
  - rewrite Hd. cbn [mbind Res_bind]. unfold response_head.
    rewrite <- !app_assoc. reflexivity.
Qed.

(** X9. The handshake response the client builds for a user and a database
    (both free of NUL) parses to that user, that database, the plugin
    [mysql_native_password] and empty [auth_data]. *)
Theorem auth_response_roundtrip (user password database : pystr)
    (ub dbb : bytes) (seq : Z) :
  utf8_encode user = Some ub -> no_nul ub ->
  utf8_encode database = Some dbb -> no_nul dbb -> database <> [] ->
  exists pl,
    create_auth_response user password database = Ok pl
    /\ parse_handshake_response (mkPacket pl seq)
       = Ok {| hr_username := user; hr_auth_data := [];
               hr_database := database;
               hr_auth_plugin := lit "mysql_native_password";
               hr_capabilities := 0x8820F;
               hr_max_packet_size := 16777216; hr_charset := 33 |}.
Proof.
  intros Hu Hnu Hd Hnd Hne. eexists. split.
  { now apply (auth_response_payload user password database ub dbb). }
  destruct database as [|c d]; [contradiction|].
  rewrite parse_handshake_response_head by reflexivity.
  unfold parse_body.
  rewrite read_cstring_terminated by assumption.
  rewrite (decode_utf8_encode user ub Hu).
  cbn [mbind Res_bind].
  change (has_flag (le_value (le_bytes 4 auth_response_capabilities))
                   CLIENT_PLUGIN_AUTH_LENENC_CLIENT_DATA) with false.
  change (has_flag (le_value (le_bytes 4 auth_response_capabilities))
                   CLIENT_CONNECT_WITH_DB) with true.
  change (has_flag (le_value (le_bytes 4 auth_response_capabilities))
                   CLIENT_PLUGIN_AUTH) with true.
  cbv iota. cbn [read_cstring Z.eqb mbind Res_bind].
  rewrite <- app_assoc. cbn [app].
  rewrite (read_cstring_terminated dbb) by assumption.
  rewrite (decode_utf8_encode _ dbb Hd).
  cbn [mbind Res_bind].
  rewrite (read_cstring_terminated (lit "mysql_native_password") [])
    by apply no_nul_plugin_name.
  rewrite decode_plugin_name. reflexivity.
Qed.

Lemma auth_response_roundtrip_witness :
  exists pl,
    create_auth_response (lit "root") [] (lit "hchdb") = Ok pl
    /\ parse_handshake_response (mkPacket pl 1)
       = Ok {| hr_username := lit "root"; hr_auth_data := [];
               hr_database := lit "hchdb";
               hr_auth_plugin := lit "mysql_native_password";
               hr_capabilities := 0x8820F;
               hr_max_packet_size := 16777216; hr_charset := 33 |}.
Proof.
  apply (auth_response_roundtrip (lit "root") [] (lit "hchdb")
           (lit "root") (lit "hchdb") 1); try reflexivity;
    try (unfold no_nul; repeat constructor; discriminate).
Defined.

(** X10. Without a database the client leaves the field out but still announces
    CONNECT_WITH_DB, so the parser takes the plugin name for the database
    and finds no plugin name. *)
Theorem auth_response_without_database (user password : pystr)
    (ub : bytes) (seq : Z) :
  utf8_encode user = Some ub -> no_nul ub ->
  exists pl,
    create_auth_response user password [] = Ok pl
    /\ parse_handshake_response (mkPacket pl seq)
       = Ok {| hr_username := user; hr_auth_data := [];
               hr_database := lit "mysql_native_password";
               hr_auth_plugin := [];
               hr_capabilities := 0x8820F;
               hr_max_packet_size := 16777216; hr_charset := 33 |}.
Proof.
  intros Hu Hnu. eexists. split.
  { now apply (auth_response_payload user password [] ub []). }
  rewrite parse_handshake_response_head by reflexivity.
  unfold parse_body.
  rewrite read_cstring_terminated by assumption.
  rewrite (decode_utf8_encode user ub Hu).
  cbn [mbind Res_bind].
  change (has_flag (le_value (le_bytes 4 auth_response_capabilities))
                   CLIENT_PLUGIN_AUTH_LENENC_CLIENT_DATA) with false.
  change (has_flag (le_value (le_bytes 4 auth_response_capabilities))
                   CLIENT_CONNECT_WITH_DB) with true.
  change (has_flag (le_value (le_bytes 4 auth_response_capabilities))
                   CLIENT_PLUGIN_AUTH) with true.
  cbv iota. cbn [read_cstring Z.eqb mbind Res_bind app].
  rewrite (read_cstring_terminated (lit "mysql_native_password") [])
    by apply no_nul_plugin_name.
  rewrite decode_plugin_name. reflexivity.
Qed.

Lemma auth_response_without_database_witness :
  exists pl,
    create_auth_response (lit "root") [] [] = Ok pl
    /\ parse_handshake_response (mkPacket pl 1)
       = Ok {| hr_username := lit "root"; hr_auth_data := [];
               hr_database := lit "mysql_native_password";
               hr_auth_plugin := [];
               hr_capabilities := 0x8820F;
               hr_max_packet_size := 16777216; hr_charset := 33 |}.
Proof.
  apply (auth_response_without_database (lit "root") [] (lit "root") 1);
    [reflexivity | unfold no_nul; repeat constructor; discriminate].
Defined.

(** ** The greeting read by the client *)

Lemma build_handshake_payload (b : PacketBuilder) (v p : pystr) (id : Z)
    (vb pb : bytes) :
  utf8_encode v = Some vb -> utf8_encode p = Some pb -> 0 <= id < 2 ^ 32 ->
  build_handshake b (Some v) (Some id) (Some p)
  = Ok (mkPacket (handshake_payload vb id pb) (builder_sequence_id b),
        mkBuilder ((builder_sequence_id b + 1) mod 256)).
Proof.
  intros Hv Hp Hid. unfold build_handshake, encode_utf8.
  cbv beta zeta iota delta [default from_option Datatypes.id].
  rewrite Hv, Hp.
  rewrite (pack_uint_ok 4 id)
    by (change (256 ^ Z.of_nat 4) with 4294967296;
        change (2 ^ 32) with 4294967296 in Hid; lia).
  reflexivity.
Qed.

Lemma find_nul_from_terminated (i : Z) (u rest : bytes) :
  no_nul u -> find_nul_from i (u ++ 0 :: rest) = i + Z.of_nat (List.length u).
Proof.
  intros Hu. revert i. induction Hu as [|c u Hc _ IH]; intros i.
  - cbn. lia.
  - cbn [app find_nul_from List.length]. apply Z.eqb_neq in Hc. rewrite Hc, IH. lia.
Qed.

(** X11. The client reads back from a greeting the protocol version 10, the
    server version and the connection id that [build_handshake] was given,
    provided the encoded version holds no NUL. *)
Theorem parse_handshake_roundtrip (b : PacketBuilder) (v p : pystr) (id : Z)
    (vb pb : bytes) :
  utf8_encode v = Some vb -> no_nul vb ->
  utf8_encode p = Some pb -> 0 <= id < 2 ^ 32 ->
  exists greeting b',
    build_handshake b (Some v) (Some id) (Some p) = Ok (greeting, b')
    /\ parse_handshake (payload greeting) = Some (10, v, id).
Proof.
  intros Hv Hnv Hp Hid. eexists. eexists. split.
  { now apply (build_handshake_payload b v p id vb pb). }
  cbn [payload]. unfold handshake_payload.
  set (rest := auth_seed_1 ++ _).
  change ([10] ++ (vb ++ [0]) ++ le_bytes 4 id ++ rest)
    with (10 :: (vb ++ [0]) ++ le_bytes 4 id ++ rest).
  rewrite <- app_assoc. cbn [app].
  unfold parse_handshake, find_nul. cbn [skipn]. rewrite drop_0.
  change (Z.of_nat 1) with 1.
  rewrite find_nul_from_terminated by assumption.
  set (n := List.length vb).
  assert (Hs1 : slice (10 :: vb ++ 0 :: le_bytes 4 id ++ rest) 1 (1 + Z.of_nat n) = vb).
  { unfold slice. rewrite (proj2 (Z.ltb_ge _ _)) by lia.
    replace (Z.to_nat (1 + Z.of_nat n)) with (S n) by lia.
    change (Z.to_nat 1) with 1%nat. cbn [firstn skipn].
    rewrite drop_0. subst n. apply take_app_length. }
  rewrite Hs1, (utf8_decode_encode v vb Hv).
  assert (Hs2 : slice (10 :: vb ++ 0 :: le_bytes 4 id ++ rest)
                  (1 + Z.of_nat n + 1) (1 + Z.of_nat n + 1 + 4) = le_bytes 4 id).
  { unfold slice. rewrite (proj2 (Z.ltb_ge _ _)) by lia.
    replace (Z.to_nat (1 + Z.of_nat n + 1 + 4)) with (S (n + 5)) by lia.
    replace (Z.to_nat (1 + Z.of_nat n + 1)) with (S (n + 1)) by lia.
    cbn [firstn skipn].
    change (vb ++ 0 :: le_bytes 4 id ++ rest)
      with (vb ++ [0] ++ le_bytes 4 id ++ rest).
    rewrite (take_app_add' vb _ n 5) by reflexivity.
    rewrite (drop_app_add' vb _ n 1) by reflexivity.
    cbn [app firstn skipn]. rewrite drop_0.
    apply take_app_length'. now rewrite length_le_bytes. }
  rewrite Hs2.
  rewrite unpack_pack
    by (change (256 ^ Z.of_nat 4) with 4294967296;
        change (2 ^ 32) with 4294967296 in Hid; lia).
  reflexivity.
Qed.

Lemma parse_handshake_roundtrip_witness :
  exists greeting b',
    build_handshake PacketBuilder_init (Some (lit "8.0.0-hchdb")) (Some 7)
                    (Some (lit "mysql_native_password")) = Ok (greeting, b')
    /\ parse_handshake (payload greeting) = Some (10, lit "8.0.0-hchdb", 7).
Proof.
  apply (parse_handshake_roundtrip PacketBuilder_init (lit "8.0.0-hchdb")
           (lit "mysql_native_password") 7 (lit "8.0.0-hchdb")
           (lit "mysql_native_password")); try reflexivity;
    try (unfold no_nul; repeat constructor; discriminate).
Defined.

(** ** Handshake responses that are too short *)

Lemma parse_body_empty (caps mps cs : Z) :
  parse_body caps mps cs []
  = Ok {| hr_username := []; hr_auth_data := []; hr_database := [];
          hr_auth_plugin := []; hr_capabilities := caps;
          hr_max_packet_size := mps; hr_charset := cs |}.
Proof.
  unfold parse_body. cbn [read_cstring].
  change (decode_utf8 []) with (@Ok pystr []). cbn [mbind Res_bind].
  destruct (has_flag caps CLIENT_PLUGIN_AUTH_LENENC_CLIENT_DATA);
    destruct (has_flag caps CLIENT_CONNECT_WITH_DB);
    destruct (has_flag caps CLIENT_PLUGIN_AUTH); reflexivity.
Qed.

(** X12. The length guard of [parse_handshake_response] covers the capability
    word only.  Under 4 octets the parse raises [ProtocolError]; with 4 to 8
    octets it raises [struct.error] on the next fixed field; from 9 octets
    on the fixed head may be cut short without any error, and up to 32
    octets the result has every variable field empty. *)
Theorem parse_handshake_response_short (pl : bytes) (seq : Z) :
  let r := parse_handshake_response (mkPacket pl seq) in
  let n := List.length pl in
  ((n < 4)%nat ->
   r = Raise (ProtocolError (lit "Invalid handshake response packet")))
  /\ ((4 <= n < 9)%nat -> exists text, r = Raise (StructError text))
  /\ ((9 <= n <= 32)%nat -> r = Ok (empty_response pl)).
Proof.
  intros r n. subst r n. split; [|split].
  - intros Hn. unfold parse_handshake_response. cbn [payload].
    now rewrite (proj2 (Z.ltb_lt _ _)) by lia.
  - intros Hn.
    destruct pl as [|b0 [|b1 [|b2 [|b3 pl]]]]; cbn [List.length] in Hn; try lia.
    destruct pl as [|b4 [|b5 [|b6 [|b7 [|b8 pl]]]]]; cbn [List.length] in Hn;
      try lia; cbn -[lit str_of_int]; eexists; reflexivity.
  - intros Hn.
    destruct pl as [|b0 [|b1 [|b2 [|b3 [|b4 [|b5 [|b6 [|b7 [|b8 pl]]]]]]]]];
      cbn [List.length] in Hn; try lia.
    assert (Hl : (List.length pl <= 23)%nat) by lia.
    unfold parse_handshake_response. cbn [payload List.length].
    rewrite (proj2 (Z.ltb_ge _ _)) by lia.
    unfold stream_read. cbn [firstn skipn]. rewrite ?take_0, ?drop_0.
    rewrite (unpack_uint_length 4 [b0; b1; b2; b3]) by reflexivity.
    rewrite (unpack_uint_length 4 [b4; b5; b6; b7]) by reflexivity.
    cbn [mbind Res_bind firstn skipn]. rewrite ?take_0.
    rewrite (unpack_uint_length 1 [b8]) by reflexivity.
    cbn [mbind Res_bind].
    rewrite (drop_ge pl 23) by lia.
    unfold empty_response. cbn [firstn skipn]. rewrite ?take_0.
    exact (parse_body_empty _ _ _).
Qed.

Lemma parse_handshake_response_short_witness :
  parse_handshake_response (mkPacket [1; 2; 3] 1)
  = Raise (ProtocolError (lit "Invalid handshake response packet"))
  /\ (exists text,
        parse_handshake_response (mkPacket [0; 0; 0; 0; 0] 1)
        = Raise (StructError text))
  /\ parse_handshake_response (mkPacket (repeat 0 9%nat) 1)
     = Ok (empty_response (repeat 0 9%nat)).
Proof.
  split; [|split].
  - apply (proj1 (parse_handshake_response_short [1; 2; 3] 1)). cbn. lia.
  - apply (proj1 (proj2 (parse_handshake_response_short [0; 0; 0; 0; 0] 1))).
    cbn. lia.
  - apply (proj2 (proj2 (parse_handshake_response_short (repeat 0 9%nat) 1))).
    cbn. lia.
Defined.

(** ** Length-prefixed [auth_data] *)



(** ** Running the session's sends *)



Lemma send_eof_run (h : Handler) :
  healthy h -> send_eof h = (Ok tt, emit eof_payload h).
Proof.
  intros Hh. unfold send_eof. rewrite run_bind. unfold with_builder.
  change (build_eof (packet_builder h) 0 2)
    with (Ok (mkPacket eof_payload (builder_sequence_id (packet_builder h)),
              mkBuilder ((builder_sequence_id (packet_builder h) + 1) mod 256))).
  cbv iota beta. rewrite write_packet_ok; [reflexivity | cbn; lia | exact Hh].
Qed.

Lemma send_ok_run (affected_rows : Z) (h : Handler) :
  healthy h -> 0 <= affected_rows < 251 ->
  send_ok affected_rows h = (Ok tt, emit [0; affected_rows; 0; 2; 0; 0; 0] h).
Proof.
  intros Hh Ha. unfold send_ok. rewrite run_bind. unfold with_builder.
  assert (Hb : build_ok (packet_builder h) affected_rows 0 2 0 []
               = Ok (mkPacket [0; affected_rows; 0; 2; 0; 0; 0]
                              (builder_sequence_id (packet_builder h)),
                     mkBuilder ((builder_sequence_id (packet_builder h) + 1) mod 256))).
  { unfold build_ok, _encode_length_encoded_int.
    rewrite (proj2 (Z.ltb_lt affected_rows 251)) by lia.
    rewrite (pack_uint_ok 1 affected_rows)
      by (change (256 ^ Z.of_nat 1) with 256; lia).
    cbn [le_bytes]. rewrite Z.mod_small by lia. reflexivity. }
  rewrite Hb. cbv iota beta.
  rewrite write_packet_ok; [reflexivity | cbn; lia | exact Hh].
Qed.

Lemma send_error_run (code : Z) (message : pystr) (mb : bytes) (h : Handler) :
  healthy h -> 0 <= code < 65536 -> utf8_encode message = Some mb ->
  Z.of_nat (List.length mb) + 9 <= 0xffffff ->
  _send_error code message h = (Ok tt, emit (err_payload code mb) h).
Proof.
  intros Hh Hc Hm Hlen. unfold _send_error. rewrite run_bind. unfold with_builder.
  assert (Hb : build_error (packet_builder h) code message (lit "HY000")
               = Ok (mkPacket (err_payload code mb)
                              (builder_sequence_id (packet_builder h)),
                     mkBuilder ((builder_sequence_id (packet_builder h) + 1) mod 256))).
  { unfold build_error, encode_utf8. rewrite Hm.
    rewrite (pack_uint_ok 2 code) by (change (256 ^ Z.of_nat 2) with 65536; lia).
    reflexivity. }
  rewrite Hb. cbv iota beta.
  rewrite write_packet_ok; [reflexivity | | exact Hh].
  cbn [payload]. unfold err_payload.
  rewrite !length_app, length_le_bytes. cbn [List.length].
  change (List.length (lit "#HY000")) with 6%nat. lia.
Qed.

Lemma utf8_encode_app (a b : pystr) (x y : bytes) :
  utf8_encode a = Some x -> utf8_encode b = Some y ->
  utf8_encode (a ++ b) = Some (x ++ y).
Proof.
  revert x. induction a as [|c a IH]; intros x Ha Hb.
  - cbn in Ha. injection Ha as <-. exact Hb.
  - cbn [app utf8_encode] in *.
    destruct (utf8_encode_char c) as [cb|]; [|discriminate].
    destruct (utf8_encode a) as [ab|]; [|discriminate].
    injection Ha as <-. rewrite (IH ab eq_refl Hb). now rewrite app_assoc.
Qed.

(** ** The connection is always closed *)

(** X14. Whatever the client sends and whatever goes wrong, [handle_connection]
    ends with the writer closed; a writer that was already closing is left
    as it is. *)
Theorem handle_connection_closes (reader : list Packet) (h : Handler) :
  is_closing (writer (handle_connection reader h).2) = true.
Proof.
  unfold handle_connection, try_finally.
  destruct (try_except _ _ h) as [r h'].
  unfold _close_connection, modify.
  destruct (is_closing (writer h')) eqn:E; cbn; [exact E | reflexivity].
Qed.

(** ** Authentication *)

Ltac run_step :=
  rewrite run_bind;
  cbn [modify get mret M_ret raise lift config username database
       set_client_capabilities set_database set_username set_reads
       set_authenticated].

Ltac run := repeat run_step.



(** ** Commands *)

Lemma octet_text (c : Z) :
  0 <= c < 256 ->
  utf8_encode (str_of_int c) = Some (str_of_int c)
  /\ (List.length (str_of_int c) <= 3)%nat.
Proof.
  intros Hc.
  assert (Hall : forallb octet_text_ok (seq 0 256) = true) by (vm_compute; reflexivity).
  rewrite forallb_forall in Hall.
  specialize (Hall (Z.to_nat c)).
  assert (Hin : In (Z.to_nat c) (seq 0 256)) by (apply in_seq; lia).
  specialize (Hall Hin). unfold octet_text_ok in Hall.
  rewrite Z2Nat.id in Hall by lia.
  destruct (utf8_encode (str_of_int c)) as [b|]; [|discriminate].
  apply andb_true_iff in Hall as [H1 H2].
  apply bool_decide_eq_true in H1. subst b.
  apply Nat.leb_le in H2. auto.
Qed.

(** X16. An empty command packet is answered by ERR 1064, a command octet the
    session does not know by ERR 1047 naming the octet in decimal; in both
    cases one packet is written and the session is otherwise unchanged. *)
Theorem process_command_unknown (c : Z) (body : bytes) (seq : Z) (h : Handler) :
  healthy h -> 0 <= c < 256 -> known_command c = false ->
  _process_command (mkPacket [] seq) h
  = (Ok tt, emit (err_payload 1064 (lit "Empty command packet")) h)
  /\ _process_command (mkPacket (c :: body) seq) h
     = (Ok tt, emit (err_payload 1047 (lit "Unknown command: " ++ str_of_int c)) h).
Proof.
  intros Hh Hc Hk. split.
  - unfold _process_command. cbn [payload].
    now rewrite (send_error_run 1064 _ (lit "Empty command packet"))
      by (try exact Hh; try reflexivity; cbn; lia).
  - unfold known_command in Hk.
    repeat (apply orb_false_iff in Hk as [Hk ?]).
    unfold _process_command. cbn [payload].
    rewrite Hk, H, H0, H1, H2.
    destruct (octet_text c Hc) as [He Hl].
    rewrite (send_error_run 1047 _ (lit "Unknown command: " ++ str_of_int c)).
    + reflexivity.
    + exact Hh.
    + lia.
    + apply utf8_encode_app; [reflexivity | exact He].
    + rewrite length_app.
      change (List.length (lit "Unknown command: ")) with 17%nat. lia.
Qed.

Lemma process_command_unknown_witness :
  (_process_command (mkPacket [0x99] 0) (Handler_init demo_config fresh_writer 1)).1
  = Ok tt
  /\ map payload
       (written (writer (_process_command (mkPacket [0x99] 0)
                           (Handler_init demo_config fresh_writer 1)).2))
     = [err_payload 1047 (lit "Unknown command: 153")].
Proof.
  pose proof (proj2 (process_command_unknown 0x99 [] 0
                       (Handler_init demo_config fresh_writer 1)
                       ltac:(unfold healthy; cbn; lia) ltac:(lia) eq_refl)) as H.
  rewrite H. split; reflexivity.
Defined.

(** X17. COM_INIT_DB with a name that is valid UTF-8 makes that name the
    session's database and is answered by one OK; with no name it is
    answered by ERR 1064 and the database stays; with a name that is not
    UTF-8 the decoding error is raised and nothing is changed or written. *)
Theorem process_command_init_db (b : Z) (body : bytes) (db : pystr)
    (seq : Z) (h : Handler) :
  healthy h ->
  (utf8_decode (b :: body) = Some db ->
   _process_command (mkPacket (COM_INIT_DB :: b :: body) seq) h
   = (Ok tt, emit ok_payload (set_database db h)))
  /\ _process_command (mkPacket [COM_INIT_DB] seq) h
     = (Ok tt, emit (err_payload 1064 (lit "Invalid USE command")) h)
  /\ (utf8_decode (b :: body) = None ->
      exists text,
        _process_command (mkPacket (COM_INIT_DB :: b :: body) seq) h
        = (Raise (UnicodeDecodeError text), h)).
Proof.
  intros Hh. split; [|split].
  - intros Hd. unfold _process_command. cbn [payload].
    change (COM_INIT_DB =? COM_QUIT) with false.
    change (COM_INIT_DB =? COM_QUERY) with false.
    change (COM_INIT_DB =? COM_PING) with false.
    change (COM_INIT_DB =? COM_INIT_DB) with true. cbv iota.
    unfold _handle_init_db. cbn [payload List.length skipn].
    rewrite (proj2 (Z.ltb_ge _ _)) by lia.
    rewrite ?drop_0. unfold decode_utf8. rewrite Hd. run.
    rewrite send_ok_run by (try exact Hh; lia). reflexivity.
  - unfold _process_command. cbn [payload].
    change (COM_INIT_DB =? COM_QUIT) with false.
    change (COM_INIT_DB =? COM_QUERY) with false.
    change (COM_INIT_DB =? COM_PING) with false.
    change (COM_INIT_DB =? COM_INIT_DB) with true. cbv iota.
    unfold _handle_init_db. cbn [payload List.length].
    change (Z.of_nat 1 <? 2) with true. cbv iota.
    now rewrite (send_error_run 1064 _ (lit "Invalid USE command"))
      by (try exact Hh; try reflexivity; cbn; lia).
  - intros Hd. unfold _process_command. cbn [payload].
    change (COM_INIT_DB =? COM_QUIT) with false.
    change (COM_INIT_DB =? COM_QUERY) with false.
    change (COM_INIT_DB =? COM_PING) with false.
    change (COM_INIT_DB =? COM_INIT_DB) with true. cbv iota.
    unfold _handle_init_db. cbn [payload List.length skipn].
    rewrite (proj2 (Z.ltb_ge _ _)) by lia.
    rewrite ?drop_0. unfold decode_utf8. rewrite Hd. run.
    eexists. reflexivity.
Qed.

Lemma process_command_init_db_witness :
  _process_command (mkPacket (COM_INIT_DB :: lit "shop") 0)
    (Handler_init demo_config fresh_writer 1)
  = (Ok tt, emit ok_payload
              (set_database (lit "shop") (Handler_init demo_config fresh_writer 1))).
Proof.
  apply (proj1 (process_command_init_db 115 (lit "hop") (lit "shop") 0
                  (Handler_init demo_config fresh_writer 1)
                  ltac:(unfold healthy; cbn; lia))).
  reflexivity.
Defined.

(** ** The command loop *)





(** ** Queries *)

Lemma startswith_first (s p p' : pystr) (a b : Z) :
  a <> b -> startswith s (a :: p) = true -> startswith s (b :: p') = false.
Proof.
  intros Hab H. destruct s as [|c s]; [discriminate|].
  cbn [startswith] in *. apply andb_true_iff in H as [H _].
  apply Z.eqb_eq in H. subst c.
  apply andb_false_iff. left. now apply Z.eqb_neq.
Qed.

Lemma startswith_second (s p p' : pystr) (a b b' : Z) :
  b <> b' -> startswith s (a :: b :: p) = true ->
  startswith s (a :: b' :: p') = false.
Proof.
  intros Hb H. destruct s as [|c s]; [discriminate|].
  cbn [startswith] in *. apply andb_true_iff in H as [H1 H2]. rewrite H1.
  cbn [andb]. now apply (startswith_first s p p' b b').
Qed.

Lemma handle_query_fallback (body : bytes) (q : pystr) (seq : Z) (h : Handler) :
  query_handler h = None -> utf8_decode body = Some q ->
  _process_command (mkPacket (COM_QUERY :: body) seq) h
  = try_except (_send_simple_result q)
      (fun e => _send_error 1064 (lit "Query error: " ++ exn_str e)) h.
Proof.
  intros Hq Hd. unfold _process_command. cbn [payload].
  change (COM_QUERY =? COM_QUIT) with false.
  change (COM_QUERY =? COM_QUERY) with true. cbv iota.
  unfold _handle_query, try_except. run.
  unfold parse_query. cbn [payload].
  change (negb (COM_QUERY =? COM_QUERY)) with false. cbv iota.
  unfold decode_utf8. rewrite Hd. run. rewrite Hq. reflexivity.
Qed.

(** X19. With no query handler installed, a statement in ASCII that is not a
    SELECT and names no SHOW topic is answered by exactly one packet: OK
    with one affected row for INSERT, UPDATE and DELETE, an EOF for a SHOW
    of anything but databases, tables, version or variables, and OK with no
    affected row for every other statement.  Case and surrounding white
    space do not matter. *)
Theorem fallback_single_packet (body : bytes) (q : pystr) (seq : Z) (h : Handler) :
  healthy h -> query_handler h = None -> utf8_decode body = Some q ->
  ascii_text q = true ->
  let r := _process_command (mkPacket (COM_QUERY :: body) seq) h in
  (is_dml q = true -> r = (Ok tt, emit [0; 1; 0; 2; 0; 0; 0] h))
  /\ (is_show q = true -> show_keyword q = false ->
      r = (Ok tt, emit eof_payload h))
  /\ (is_select q = false -> is_dml q = false -> is_show q = false ->
      r = (Ok tt, emit ok_payload h)).
Proof.
  intros Hh Hq Hd _ r. subst r.
  rewrite (handle_query_fallback body q seq h Hq Hd).
  unfold try_except, _send_simple_result.
  unfold is_dml, is_show, is_select, show_keyword.
  set (qu := strip (upper q)).
  split; [|split].
  - intros Hdml.
    assert (Hs : startswith qu (lit "SELECT") = false).
    { apply orb_true_iff in Hdml as [Hdml|Hdml];
        [apply orb_true_iff in Hdml as [Hdml|Hdml]|];
        refine (startswith_first qu _ _ _ _ _ Hdml); discriminate. }
    rewrite Hs, Hdml.
    rewrite send_ok_run by (try exact Hh; lia). reflexivity.
  - intros Hshow Hkw.
    assert (Hs : startswith qu (lit "SELECT") = false).
    { refine (startswith_second qu _ _ _ _ _ _ Hshow). discriminate. }
    assert (Hdml : startswith qu (lit "INSERT") || startswith qu (lit "UPDATE")
                   || startswith qu (lit "DELETE") = false).
    { rewrite !orb_false_iff. repeat split;
        refine (startswith_first qu _ _ _ _ _ Hshow); discriminate. }
    rewrite Hs, Hdml, Hshow. unfold _send_show_result. fold qu.
    rewrite !orb_false_iff in Hkw. destruct Hkw as [[[K1 K2] K3] K4].
    rewrite K1, K2, K3, K4. cbn [orb].
    rewrite send_eof_run by exact Hh. reflexivity.
  - intros Hs Hdml Hshow. rewrite Hs, Hdml, Hshow.
    rewrite send_ok_run by (try exact Hh; lia). reflexivity.
Qed.

Lemma fallback_single_packet_witness :
  _process_command (query_packet (lit "  delete from t")) 
    (Handler_init demo_config fresh_writer 1)
  = (Ok tt, emit [0; 1; 0; 2; 0; 0; 0] (Handler_init demo_config fresh_writer 1)).
Proof.
  apply (proj1 (fallback_single_packet (lit "  delete from t")
                  (lit "  delete from t") 0
                  (Handler_init demo_config fresh_writer 1)
                  ltac:(unfold healthy; cbn; lia) eq_refl eq_refl eq_refl)).
  reflexivity.
Defined.

(** X20. With a query handler installed, a query is answered by one packet: the
    default OK when the handler returns (whatever it returns), and ERR 1064
    with [Query error: ] and the exception's text when it raises. *)
Theorem query_handler_reply (body : bytes) (q : pystr) (seq : Z)
    (f : pystr -> Res unit) (h : Handler) :
  healthy h -> query_handler h = Some f -> utf8_decode body = Some q ->
  let r := _process_command (mkPacket (COM_QUERY :: body) seq) h in
  (f q = Ok tt -> r = (Ok tt, emit ok_payload h))
  /\ (forall e eb,
        f q = Raise e -> utf8_encode (exn_str e) = Some eb ->
        Z.of_nat (List.length eb) + 22 <= 0xffffff ->
        r = (Ok tt, emit (err_payload 1064 (lit "Query error: " ++ eb)) h)).
Proof.
  intros Hh Hq Hd r. subst r.
  unfold _process_command. cbn [payload].
  change (COM_QUERY =? COM_QUIT) with false.
  change (COM_QUERY =? COM_QUERY) with true. cbv iota.
  unfold _handle_query, try_except. run.
  unfold parse_query. cbn [payload].
  change (negb (COM_QUERY =? COM_QUERY)) with false. cbv iota.
  unfold decode_utf8. rewrite Hd. run. rewrite Hq.
  split.
  - intros Hf. run. rewrite Hf. unfold _send_query_result.
    rewrite send_ok_run by (try exact Hh; lia). reflexivity.
  - intros e eb Hf He Hlen. run. rewrite Hf.
    rewrite (send_error_run 1064 _ (lit "Query error: " ++ eb)).
    + reflexivity.
    + exact Hh.
    + lia.
    + apply utf8_encode_app; [reflexivity | exact He].
    + rewrite length_app.
      change (List.length (lit "Query error: ")) with 13%nat. lia.
Qed.

Lemma query_handler_reply_witness :
  let h := set_query_handler (fun _ => Raise (HandlerError (lit "no such table")))
             (Handler_init demo_config fresh_writer 1) in
  _process_command (query_packet (lit "SELECT 1")) h
  = (Ok tt, emit (err_payload 1064 (lit "Query error: no such table")) h).
Proof.
  intros h.
  apply (proj2 (query_handler_reply (lit "SELECT 1") (lit "SELECT 1") 0
                  (fun _ => Raise (HandlerError (lit "no such table"))) h
                  ltac:(unfold healthy; cbn; lia) eq_refl eq_refl)
               (HandlerError (lit "no such table")) (lit "no such table")
               eq_refl eq_refl).
  cbn. lia.
Defined.

(** X21. A query whose octets are not UTF-8 is answered by one ERR 1064 packet
    whose message starts with [Query error: ]; the handler is not called
    and the session is otherwise unchanged. *)
Theorem query_not_utf8 (body : bytes) (seq : Z) (h : Handler) :
  healthy h -> utf8_decode body = None ->
  exists text,
    _process_command (mkPacket (COM_QUERY :: body) seq) h
    = (Ok tt, emit (err_payload 1064 (lit "Query error: " ++ text)) h).
Proof.
  intros Hh Hd. unfold _process_command. cbn [payload].
  change (COM_QUERY =? COM_QUIT) with false.
  change (COM_QUERY =? COM_QUERY) with true. cbv iota.
  unfold _handle_query, try_except. run.
  unfold parse_query. cbn [payload].
  change (negb (COM_QUERY =? COM_QUERY)) with false. cbv iota.
  unfold decode_utf8. rewrite Hd. cbn [exn_str].
  eexists.
  rewrite (send_error_run 1064 _ (lit "Query error: 'utf-8' codec can't decode"));
    [reflexivity | exact Hh | lia | reflexivity | cbn; lia].
Qed.

Lemma query_not_utf8_witness :
  exists text,
    _process_command (mkPacket [COM_QUERY; 0xff] 0)
      (Handler_init demo_config fresh_writer 1)
    = (Ok tt, emit (err_payload 1064 (lit "Query error: " ++ text))
                (Handler_init demo_config fresh_writer 1)).
Proof.
  apply (query_not_utf8 [0xff] 0 (Handler_init demo_config fresh_writer 1));
    [unfold healthy; cbn; lia | reflexivity].
Defined.

(** ** The SELECT echo *)




(** ** A client that sends nothing *)

(** X23. When the client closes before sending a handshake response, a fresh
    session writes the greeting (sequence id 0) and one ERR 1105 packet
    (sequence id 1) saying that no authentication packet was received,
    closes the writer and returns without raising; it never becomes
    authenticated. *)
Theorem no_handshake_response (cfg : Config) (w : Writer) (cid : Z) (vb : bytes) :
  utf8_encode (server_version cfg) = Some vb ->
  Z.of_nat (List.length vb) + 68 <= 0xffffff ->
  0 <= cid < 2 ^ 32 ->
  let r := handle_connection [] (Handler_init cfg w cid) in
  r.1 = Ok tt
  /\ written (writer r.2)
     = written w
       ++ [mkPacket (handshake_payload vb cid (lit "mysql_native_password")) 0;
           mkPacket (err_payload 1105
                       (lit "Internal error: [1001] No authentication packet received"))
                    1]
  /\ is_closing (writer r.2) = true
  /\ authenticated r.2 = false.
Proof.
  intros Hv Hlen Hcid r. subst r.
  set (h := Handler_init cfg w cid).
  assert (Hh : healthy h) by (unfold healthy; cbn; lia).
  set (g := handshake_payload vb cid (lit "mysql_native_password")).
  assert (Hs : _send_handshake h = (Ok tt, emit g h)).
  { unfold _send_handshake. run. unfold with_builder.
    change (build_handshake (packet_builder h) (Some (server_version (config h)))
              (Some (connection_id h)) None)
      with (build_handshake (packet_builder h) (Some (server_version cfg))
              (Some cid) (@Some pystr (lit "mysql_native_password"))).
    rewrite (build_handshake_payload (packet_builder h) (server_version cfg)
               (lit "mysql_native_password") cid vb
               (lit "mysql_native_password") Hv eq_refl Hcid).
    cbv iota beta. rewrite write_packet_ok; [reflexivity | | exact Hh].
    cbn [payload]. subst g. unfold handshake_payload.
    rewrite !length_app, length_le_bytes. cbn [List.length].
    change (List.length auth_seed_1) with 8%nat.
    change (List.length (le_bytes 2 capabilities_low)) with 2%nat.
    change (List.length (le_bytes 2 capabilities_high)) with 2%nat.
    change (List.length (repeat 0 10)) with 10%nat.
    change (List.length auth_seed_2) with 12%nat.
    change (List.length (lit "mysql_native_password")) with 21%nat. lia. }
  unfold handle_connection, try_finally, try_except.
  rewrite run_bind, Hs. run.
  unfold _handle_authentication. run. cbn [_read_packet]. run.
  unfold raise. cbv beta iota. cbn [exn_str].
  rewrite (send_error_run 1105 _
             (lit "Internal error: [1001] No authentication packet received"));
    [| | lia | reflexivity | cbn; lia].
  - unfold _close_connection, modify.
    set (h2 := emit _ (set_reads _ (emit g h))).
    assert (Hw2 : written (writer h2)
                  = written w
                    ++ [mkPacket g 0;
                        mkPacket (err_payload 1105
                                    (lit "Internal error: [1001] No authentication packet received"))
                                 1]).
    { subst h2 h. cbn [emit writer written set_writer writer_write set_reads
                       set_packet_builder Handler_init].
      rewrite <- app_assoc. reflexivity. }
    assert (Ha2 : authenticated h2 = false) by reflexivity.
    destruct (is_closing (writer h2)) eqn:E; cbv beta iota; cbn [fst snd].
    + repeat split; assumption.
    + repeat split; assumption.
  - unfold healthy. cbn. apply Z.mod_pos_bound. lia.
Qed.

Lemma no_handshake_response_witness :
  written_ids (handle_connection [] (Handler_init demo_config fresh_writer 1))
  = [0; 1].
Proof.
  destruct (no_handshake_response demo_config fresh_writer 1 (lit "8.0.0-hchdb")
              eq_refl ltac:(cbn; lia) ltac:(lia)) as (_ & H & _).
  unfold written_ids. cbv zeta in H. rewrite H. reflexivity.
Defined.

(** ** Connection ids *)

Lemma cleanup_connection_fields (m : ConnectionManager) (cid : Z) :
  _next_connection_id (_cleanup_connection m cid).1 = _next_connection_id m
  /\ total_connections (_cleanup_connection m cid).1 = total_connections m
  /\ rejected_connections (_cleanup_connection m cid).1 = rejected_connections m
  /\ manager_config (_cleanup_connection m cid).1 = manager_config m.
Proof.
  unfold _cleanup_connection.
  destruct (_connections m !! cid);
    match goal with |- context [_active_handlers ?x !! cid] =>
      destruct (_active_handlers x !! cid) end; cbn; auto.
Qed.

Lemma cleanup_connection_ids (m : ConnectionManager) (cid : Z) :
  ids_consistent m -> ids_consistent (_cleanup_connection m cid).1.
Proof.
  intros (H1 & H2 & H3 & H4).
  destruct (cleanup_connection_fields m cid) as (F1 & F2 & F3 & _).
  destruct (cleanup_connection_connections m cid) as [C _].
  unfold ids_consistent. rewrite F1, F2, F3, C. repeat split; try assumption;
    destruct H as [x Hx]; apply lookup_delete_Some in Hx as [_ Hx];
    apply H1; eauto.
Qed.

Lemma cleanup_fold_ids (ids : list Z) (m : ConnectionManager) :
  ids_consistent m ->
  ids_consistent (fold_left (fun m cid => (_cleanup_connection m cid).1) ids m).
Proof.
  revert m. induction ids as [|cid ids IH]; intros m H; cbn [fold_left];
    [assumption|]. apply IH. now apply cleanup_connection_ids.
Qed.

Lemma manager_step_ids (m m' : ConnectionManager) :
  manager_step m m' -> ids_consistent m -> ids_consistent m'.
Proof.
  intros Hstep H.
  destruct Hstep as [m reader w t1 t2 | m cid | m t | m now
                    | m cid q s r now | m cid user db].
  - unfold handle_new_connection.
    destruct (Z.of_nat (size (_connections m)) >=? _max_connections m).
    + destruct H as (H1 & H2 & H3 & H4). unfold ids_consistent. cbn.
      repeat split; try lia; apply H1; auto.
    + destruct H as (H1 & H2 & H3 & H4). unfold ids_consistent. cbn.
      repeat split; try lia;
        destruct H as [x Hx]; apply lookup_insert_Some in Hx as [[<- _]|[Hne Hx]];
        try lia; assert (Hi : 1 <= id < _next_connection_id m) by (apply H1; eauto);
        lia.
  - now apply cleanup_connection_ids.
  - unfold _handle_connection.
    destruct (handle_connection (task_reader t) (task_handler t)) as [r handler].
    destruct (_active_handlers m !! info_connection_id (task_connection_info t));
      apply cleanup_connection_ids; exact H.
  - unfold _cleanup_idle_connections. now apply cleanup_fold_ids.
  - unfold update_connection_activity.
    destruct (_connections m !! cid) as [info|] eqn:E; [|exact H].
    destruct H as (H1 & H2 & H3 & H4). unfold ids_consistent. cbn.
    repeat split; try assumption;
      destruct H as [x Hx]; apply lookup_insert_Some in Hx as [[<- _]|[Hne Hx]];
      apply H1; eauto.
  - unfold update_connection_auth.
    destruct (_connections m !! cid) as [info|] eqn:E; [|exact H].
    destruct H as (H1 & H2 & H3 & H4). unfold ids_consistent. cbn.
    repeat split; try assumption;
      destruct H as [x Hx]; apply lookup_insert_Some in Hx as [[<- _]|[Hne Hx]];
      apply H1; eauto.
Qed.

Lemma reachable_ids (cfg : Config) (m : ConnectionManager) :
  manager_reachable cfg m -> ids_consistent m.
Proof.
  induction 1 as [now|m m' Hr IH Hstep].
  - unfold ids_consistent. cbn. repeat split; try lia.
    all: destruct H as [x Hx]; rewrite lookup_empty in Hx; discriminate.
  - now apply (manager_step_ids m m').
Qed.

(** X24. In every state a manager can reach, each tracked connection id lies
    between 1 and the next id to hand out, that next id is never below 1,
    and [total_connections] is the number of ids handed out so far. *)
Theorem connection_ids_never_reused (cfg : Config) (m : ConnectionManager) :
  manager_reachable cfg m ->
  (forall id, is_Some (_connections m !! id) -> 1 <= id < _next_connection_id m)
  /\ total_connections m = _next_connection_id m - 1
  /\ 1 <= _next_connection_id m.
Proof.
  intros Hr. destruct (reachable_ids cfg m Hr) as (H1 & H2 & H3 & _). auto.
Qed.

Lemma connection_ids_never_reused_witness :
  total_connections full_manager = _next_connection_id full_manager - 1.
Proof.
  refine (proj1 (proj2 (connection_ids_never_reused cap1_config full_manager _))).
  eapply reachable_step; [apply (reachable_init _ 0)|]. apply step_new_connection.
Defined.

(** X25. Below the cap a connection is admitted: in a reachable state it gets
    the next id, which no tracked connection has, so exactly one connection
    is added and none is replaced; the socket is neither written nor
    closed, a session is created for it on a fresh handler, and nothing is
    counted as rejected. *)
Theorem admission_below_cap (cfg : Config) (m : ConnectionManager)
    (reader : list Packet) (w : Writer) (t1 t2 : Z) :
  manager_reachable cfg m ->
  Z.of_nat (size (_connections m)) < _max_connections m ->
  let r := handle_new_connection m reader w t1 t2 in
  let id := _next_connection_id m in
  _connections r.1.1 = <[id := new_connection_info m w t1 t2]> (_connections m)
  /\ _connections m !! id = None
  /\ size (_connections r.1.1) = S (size (_connections m))
  /\ _next_connection_id r.1.1 = id + 1
  /\ rejected_connections r.1.1 = rejected_connections m
  /\ r.1.2 = w
  /\ r.2 = Some (mkSessionTask (Handler_init (manager_config m) w id)
                               (new_connection_info m w t1 t2) reader).
Proof.
  intros Hr Hlt r id. subst r id.
  destruct (reachable_ids cfg m Hr) as (H1 & _).
  assert (Hfresh : _connections m !! _next_connection_id m = None).
  { destruct (_connections m !! _next_connection_id m) eqn:E; [|reflexivity].
    assert (1 <= _next_connection_id m < _next_connection_id m)
      by (apply H1; eauto). lia. }
  unfold handle_new_connection.
  rewrite Z.geb_leb, (proj2 (Z.leb_gt _ _)) by lia.
  cbn [fst snd _connections _next_connection_id rejected_connections].
  repeat split; try assumption.
  now rewrite map_size_insert_None.
Qed.

Lemma admission_below_cap_witness :
  let r := handle_new_connection (ConnectionManager_init cap1_config 0) []
             fresh_writer 0 0 in
  size (_connections r.1.1) = 1%nat /\ _next_connection_id r.1.1 = 2.
Proof.
  destruct (admission_below_cap cap1_config (ConnectionManager_init cap1_config 0)
              [] fresh_writer 0 0 (reachable_init _ 0) ltac:(vm_compute; reflexivity))
    as (_ & _ & H3 & H4 & _).
  split; [exact H3 | exact H4].
Defined.

(** ** Cleaning up *)

Lemma cleanup_connection_handlers (m : ConnectionManager) (cid : Z) :
  _active_handlers (_cleanup_connection m cid).1 = delete cid (_active_handlers m).
Proof.
  unfold _cleanup_connection.
  destruct (_connections m !! cid); cbn [_active_handlers set_connections];
    destruct (_active_handlers m !! cid) eqn:E; cbn;
    try reflexivity; now rewrite delete_id.
Qed.

(** X26. [_cleanup_connection] forgets the connection in both maps and leaves
    every other connection as it was; the handler it returns has its writer
    closed; doing it again changes nothing. *)
Theorem cleanup_connection_removes (m : ConnectionManager) (cid : Z) :
  let r := _cleanup_connection m cid in
  _connections r.1 = delete cid (_connections m)
  /\ _active_handlers r.1 = delete cid (_active_handlers m)
  /\ (forall h, r.2 = Some h -> is_closing (writer h) = true)
  /\ _cleanup_connection r.1 cid = (r.1, None).
Proof.
  intros r. subst r.
  pose proof (cleanup_connection_connections m cid) as [Hc _].
  pose proof (cleanup_connection_handlers m cid) as Hh.
  split; [exact Hc|]. split; [exact Hh|]. split.
  - intros h. unfold _cleanup_connection.
    destruct (_connections m !! cid); cbn [_active_handlers set_connections];
      destruct (_active_handlers m !! cid) as [h0|]; cbn [snd];
      try discriminate; intros [= <-]; unfold _close_handler;
      destruct (is_closing (writer h0)) eqn:E; auto.
  - set (m1 := (_cleanup_connection m cid).1) in *.
    unfold _cleanup_connection.
    rewrite Hc, lookup_delete_eq, Hh, lookup_delete_eq. reflexivity.
Qed.

Lemma cleanup_fold_connections (ids : list Z) (m : ConnectionManager) :
  _connections (fold_left (fun m cid => (_cleanup_connection m cid).1) ids m)
  = fold_left (fun c cid => delete cid c) ids (_connections m).
Proof.
  revert m. induction ids as [|cid ids IH]; intros m; cbn [fold_left];
    [reflexivity|].
  rewrite IH. now destruct (cleanup_connection_connections m cid) as [-> _].
Qed.

Lemma lookup_fold_delete (ids : list Z) (c : gmap Z ConnectionInfo) (id : Z) :
  fold_left (fun c cid => delete cid c) ids c !! id
  = if bool_decide (id ∈ ids) then None else c !! id.
Proof.
  revert c. induction ids as [|cid ids IH]; intros c; cbn [fold_left].
  - rewrite bool_decide_eq_false_2; [reflexivity|]. apply not_elem_of_nil.
  - rewrite IH. destruct (decide (id = cid)) as [->|Hne].
    + rewrite lookup_delete_eq.
      rewrite (bool_decide_eq_true_2 (cid ∈ cid :: ids))
        by (apply elem_of_cons; now left).
      now destruct (bool_decide (cid ∈ ids)).
    + rewrite lookup_delete_ne by congruence.
      destruct (decide (id ∈ ids)) as [Hin|Hnin].
      * rewrite !bool_decide_eq_true_2;
          [reflexivity | apply elem_of_cons; now right | assumption].
      * rewrite !bool_decide_eq_false_2; [reflexivity | | assumption].
        intros Hc. apply elem_of_cons in Hc as [?|?]; contradiction.
Qed.

(** X27. [_cleanup_idle_connections] removes exactly the connections whose last
    activity is more than [idle_timeout] before [now]: those are gone, every
    other connection is kept as it was. *)
Theorem cleanup_idle_exact (m : ConnectionManager) (now id : Z) :
  _connections (_cleanup_idle_connections m now) !! id
  = match _connections m !! id with
    | Some info => if is_idle m now info then None else Some info
    | None => None
    end.
Proof.
  unfold _cleanup_idle_connections.
  rewrite cleanup_fold_connections, lookup_fold_delete.
  set (P := fun kv : Z * ConnectionInfo =>
              now - info_last_activity (snd kv) >? idle_timeout (manager_config m)).
  destruct (_connections m !! id) as [info|] eqn:E.
  - unfold is_idle.
    destruct (now - info_last_activity info >? idle_timeout (manager_config m)) eqn:Ei.
    + rewrite bool_decide_eq_true_2; [reflexivity|].
      apply list_elem_of_In, in_map_iff. exists (id, info).
      split; [reflexivity|]. apply list_elem_of_In.
      apply list_elem_of_filter. split.
      * unfold P. cbn [snd]. rewrite Ei. exact I.
      * now apply elem_of_map_to_list.
    + rewrite bool_decide_eq_false_2; [reflexivity|].
      intros Hin. apply list_elem_of_In, in_map_iff in Hin as [[k v] [Hk Hin]].
      cbn in Hk. subst k. apply list_elem_of_In in Hin.
      apply list_elem_of_filter in Hin as [HP Hin].
      apply elem_of_map_to_list in Hin. rewrite E in Hin. injection Hin as <-.
      unfold P in HP. cbn [snd] in HP. rewrite Ei in HP. exact HP.
  - destruct (bool_decide _); reflexivity.
Qed.

(** X28. When a session ends, however it ends, [_handle_connection] has removed
    its connection from both maps and left the other connections alone. *)
Theorem handle_connection_cleans_up (m : ConnectionManager) (t : SessionTask)
    (id : Z) :
  let cid := info_connection_id (task_connection_info t) in
  let m' := (_handle_connection m t).1 in
  _connections m' !! cid = None /\ _active_handlers m' !! cid = None
  /\ (id <> cid -> _connections m' !! id = _connections m !! id).
Proof.
  intros cid m'. subst cid m'. unfold _handle_connection.
  set (cid := info_connection_id (task_connection_info t)).
  destruct (handle_connection (task_reader t) (task_handler t)) as [r handler].
  set (m1 := match _active_handlers m !! cid with
             | Some _ => _ | None => m end).
  assert (Hc1 : _connections m1 = _connections m).
  { subst m1. now destruct (_active_handlers m !! cid). }
  destruct (cleanup_connection_connections m1 cid) as [-> _].
  rewrite cleanup_connection_handlers, Hc1.
  split; [apply lookup_delete_eq|]. split; [apply lookup_delete_eq|].
  intros Hne. now apply lookup_delete_ne.
Qed.

Lemma cleanup_connection_removes_witness :
  exists h, (_cleanup_connection full_manager 1).2 = Some h
            /\ is_closing (writer h) = true.
Proof.
  destruct (_cleanup_connection full_manager 1).2 as [h|] eqn:E.
  - exists h. split; [reflexivity|].
    exact (proj1 (proj2 (proj2 (cleanup_connection_removes full_manager 1))) h E).
  - vm_compute in E. discriminate E.
Defined.

Lemma handle_connection_cleans_up_witness :
  _connections
    (_handle_connection full_manager
       (mkSessionTask (Handler_init cap1_config fresh_writer 1)
                      (new_connection_info (ConnectionManager_init cap1_config 0)
                                           fresh_writer 0 0) [])).1 !! 2
  = _connections full_manager !! 2.
Proof.
  apply (proj2 (proj2 (handle_connection_cleans_up full_manager
                         (mkSessionTask (Handler_init cap1_config fresh_writer 1)
                            (new_connection_info (ConnectionManager_init cap1_config 0)
                                                 fresh_writer 0 0) []) 2))).
  vm_compute. discriminate.
Defined.

(** ** The configuration: [get] and [set] *)

Lemma dict_get_set_eq k v d : dict_get k (dict_set k v d) = Some v.
Proof.
  induction d as [|[k' v'] d IH]; cbn [dict_set dict_get].
  - now rewrite bool_decide_eq_true_2.
  - destruct (decide (k = k')) as [->|Hne].
    + rewrite bool_decide_eq_true_2 by reflexivity. cbn [dict_get].
      now rewrite bool_decide_eq_true_2.
    + rewrite bool_decide_eq_false_2 by assumption. cbn [dict_get].
      now rewrite bool_decide_eq_false_2.
Qed.

Lemma dict_get_set_ne k k' v d : k <> k' -> dict_get k' (dict_set k v d) = dict_get k' d.
Proof.
  intros Hne. induction d as [|[k0 v0] d IH]; cbn [dict_set dict_get].
  - rewrite bool_decide_eq_false_2 by congruence. reflexivity.
  - destruct (decide (k = k0)) as [->|Hk].
    + rewrite bool_decide_eq_true_2 by reflexivity. cbn [dict_get].
      rewrite !bool_decide_eq_false_2 by congruence. reflexivity.
    + rewrite bool_decide_eq_false_2 by assumption. cbn [dict_get].
      now rewrite IH.
Qed.

Lemma split_dot_nonempty (key : pystr) : split_dot key <> [].
Proof.
  destruct key as [|c r]; cbn [split_dot]; [discriminate|].
  destruct (c =? 46); [discriminate|]. destruct (split_dot r); discriminate.
Qed.

Lemma config_walk_set (keys : list pystr) (value data data' : ConfigValue) :
  config_set_path keys value data = Some data' ->
  config_walk keys data' = Some value.
Proof.
  revert data data'. induction keys as [|k ks IH]; intros data data' H;
    cbn [config_set_path] in H; [discriminate|].
  destruct data as [| | | | |d]; try discriminate.
  destruct ks as [|k2 ks].
  - injection H as <-. cbn [config_walk]. now rewrite dict_get_set_eq.
  - destruct (config_set_path (k2 :: ks) value _) as [sub'|] eqn:E; [|discriminate].
    injection H as <-. cbn [config_walk]. rewrite dict_get_set_eq.
    exact (IH _ _ E).
Qed.

Lemma config_set_fresh (keys : list pystr) (value : ConfigValue) :
  keys <> [] -> is_Some (config_set_path keys value (CDict [])).
Proof.
  induction keys as [|k ks IH]; intros Hne; [contradiction|].
  cbn [config_set_path]. destruct ks as [|k2 ks]; [eauto|].
  cbn [dict_get]. destruct (IH ltac:(discriminate)) as [sub' ->]. eauto.
Qed.

(** X29. What [Config.set] stored, [Config.get] returns for the same key,
    whatever default is given; a key whose first part differs from the
    first part of the key set reads as before; and on an empty
    configuration [set] never fails. *)
Theorem config_set_get (data data' : ConfigValue) (key key' : pystr)
    (value default : ConfigValue) :
  Config_set data key value = Some data' ->
  Config_get data' key default = value
  /\ (hd [] (split_dot key) <> hd [] (split_dot key') ->
      Config_get data' key' default = Config_get data key' default)
  /\ is_Some (Config_set (CDict []) key value).
Proof.
  unfold Config_set, Config_get. intros H. split; [|split].
  - now rewrite (config_walk_set _ _ _ _ H).
  - intros Hne.
    destruct (split_dot key) as [|k ks] eqn:Ek; [discriminate|].
    destruct (split_dot key') as [|k' ks'] eqn:Ek'.
    { now apply split_dot_nonempty in Ek'. }
    cbn [hd] in Hne. cbn [config_set_path] in H.
    destruct data as [| | | | |d]; try discriminate.
    assert (Hd : exists d', data' = CDict d' /\ dict_get k' d' = dict_get k' d).
    { destruct ks as [|k2 ks].
      - injection H as <-. eexists. split; [reflexivity|].
        now apply dict_get_set_ne.
      - destruct (config_set_path (k2 :: ks) value _) as [sub'|]; [|discriminate].
        injection H as <-. eexists. split; [reflexivity|].
        now apply dict_get_set_ne. }
    destruct Hd as (d' & -> & Hd). cbn [config_walk]. now rewrite Hd.
  - apply config_set_fresh, split_dot_nonempty.
Qed.

Lemma config_set_get_witness :
  Config_get (CDict [(lit "server", CDict [(lit "host", CStr (lit "::1"))])])
             (lit "server.host") CNone
  = CStr (lit "::1").
Proof.
  apply (proj1 (config_set_get (CDict [])
                  (CDict [(lit "server", CDict [(lit "host", CStr (lit "::1"))])])
                  (lit "server.host") [] (CStr (lit "::1")) CNone eq_refl)).
Defined.

Lemma split_dot_app (a b : pystr) :
  split_dot (a ++ 46 :: b)
  = match split_dot a with
    | [] => split_dot b
    | _ => split_dot a ++ split_dot b
    end.
Proof.
  induction a as [|c a IH]; cbn [app split_dot].
  - reflexivity.
  - rewrite IH. destruct (c =? 46).
    + destruct (split_dot a) eqn:E; [now apply split_dot_nonempty in E|].
      reflexivity.
    + destruct (split_dot a) as [|p ps] eqn:E; [now apply split_dot_nonempty in E|].
      reflexivity.
Qed.

Lemma config_walk_app (ks1 ks2 : list pystr) (data : ConfigValue) :
  config_walk (ks1 ++ ks2) data
  = match config_walk ks1 data with
    | Some v => config_walk ks2 v
    | None => None
    end.
Proof.
  revert data. induction ks1 as [|k ks1 IH]; intros data; cbn [app config_walk];
    [reflexivity|].
  destruct data; try reflexivity. destruct (dict_get k d); [apply IH | reflexivity].
Qed.

(** X30. [Config.get] gives the default for every key of an empty
    configuration, and for every key that continues, after a dot, below a
    key whose value is not a dictionary: the error of indexing such a
    value is swallowed. *)
Theorem config_get_default (data : ConfigValue) (key sub : pystr)
    (default : ConfigValue) :
  Config_get (CDict []) key default = default
  /\ (is_dict (Config_get data key (CDict [])) = false ->
      Config_get data (key ++ 46 :: sub) default = default).
Proof.
  unfold Config_get. split.
  - destruct (split_dot key) as [|k ks] eqn:E; [now apply split_dot_nonempty in E|].
    reflexivity.
  - intros Hnd. rewrite split_dot_app.
    destruct (split_dot key) as [|k ks] eqn:E; [now apply split_dot_nonempty in E|].
    rewrite config_walk_app.
    destruct (config_walk (k :: ks) data) as [v|]; [|reflexivity].
    destruct (split_dot sub) as [|k2 ks2] eqn:E2; [now apply split_dot_nonempty in E2|].
    destruct v; try reflexivity. discriminate Hnd.
Qed.

Lemma config_get_default_witness :
  Config_get (CDict [(lit "logging", CDict [(lit "level", CStr (lit "INFO"))])])
             (lit "logging.level.name") (CInt 7)
  = CInt 7.
Proof.
  apply (proj2 (config_get_default
                  (CDict [(lit "logging", CDict [(lit "level", CStr (lit "INFO"))])])
                  (lit "logging.level") (lit "name") (CInt 7))).
  reflexivity.
Defined.
